(** * Checkout orchestration of the React Native payment bridge

    A shallow embedding of [src/AdyenCheckoutContext.tsx] (the [AdyenCheckout]
    provider: [start], [startEventListeners], [removeEventListeners],
    [submitPayment], [createSession]), of the payment-method resolver [find]
    and of the Android [InstantFragment.onViewState], followed by the
    properties the specification states about them.

    JavaScript objects are association lists in insertion order, effects are
    written to a log by a small state-and-exception monad, and the closures
    handed to the event emitter are kept as data (their captured variables). *)

From Stdlib Require Import String Ascii List ZArith Bool Arith Lia.
From Stdlib Require Import DecimalString.
Import ListNotations.
Local Open Scope string_scope.
Local Open Scope list_scope.
Local Set Warnings "-register-all".

(* ================================================================== *)
(** * Part I: definitions *)
(* ================================================================== *)

(** ** JavaScript values *)

Module JS.

(** The values that cross the native bridge or are held in props: the JSON
    values, and [undefined] (the result of reading an absent property). *)
Inductive Value : Type :=
| Undefined
| Null
| Bool (b : bool)
| Num (n : Z)
| Str (s : string)
| Arr (items : list Value)
| Obj (props : list (string * Value)).

(** An object's own properties, in insertion order. *)
Definition Object := list (string * Value).

(** [o\[k\]] as a property slot: [None] when [o] has no own property [k]. *)
Fixpoint lookup (o : Object) (k : string) : option Value :=
  match o with
  | [] => None
  | (k', v) :: rest => if String.eqb k' k then Some v else lookup rest k
  end.

(** [o.k]: reading an absent property gives [undefined]. *)
Definition get (o : Object) (k : string) : Value :=
  match lookup o k with
  | Some v => v
  | None => Undefined
  end.

(** Defining property [k]: an existing property keeps its position and takes
    the new value, a new one is appended. *)
Fixpoint set (o : Object) (k : string) (v : Value) : Object :=
  match o with
  | [] => [(k, v)]
  | (k', v') :: rest =>
      if String.eqb k' k then (k', v) :: rest else (k', v') :: set rest k v
  end.

(** [{...o, k: v}]: a copy of the own properties of [o], then [k] defined. *)
Definition spread_with (o : Object) (k : string) (v : Value) : Object :=
  set o k v.

(** [v == null], the test behind [??] and [?.]. *)
Definition nullish (v : Value) : bool :=
  match v with
  | Undefined | Null => true
  | _ => false
  end.

(** [a ?? b] *)
Definition coalesce (a b : Value) : Value :=
  if nullish a then b else a.

(** [v === s] for a string literal [s]. *)
Definition strict_eq_string (v : Value) (s : string) : bool :=
  match v with
  | Str s' => String.eqb s' s
  | _ => false
  end.

(** *** [JSON.stringify] on these values *)

Definition quote : ascii := "034"%char.
Definition backslash : ascii := "092"%char.

Definition hex_digit (n : nat) : ascii :=
  ascii_of_nat (if Nat.ltb n 10 then 48 + n else 87 + n)%nat.

Definition escape_char (c : ascii) : string :=
  let n := nat_of_ascii c in
  if Ascii.eqb c quote then String backslash (String quote EmptyString)
  else if Ascii.eqb c backslash then String backslash (String backslash EmptyString)
  else if Nat.eqb n 8 then String backslash "b"
  else if Nat.eqb n 9 then String backslash "t"
  else if Nat.eqb n 10 then String backslash "n"
  else if Nat.eqb n 12 then String backslash "f"
  else if Nat.eqb n 13 then String backslash "r"
  else if Nat.ltb n 32 then
    String backslash
      ("u00" ++ String (hex_digit (Nat.div n 16))
                  (String (hex_digit (Nat.modulo n 16)) EmptyString))%string
  else String c EmptyString.

Fixpoint escape (s : string) : string :=
  match s with
  | EmptyString => EmptyString
  | String c rest => (escape_char c ++ escape rest)%string
  end.

Definition quoted (s : string) : string :=
  String quote (escape s ++ String quote EmptyString)%string.

(** *** Numbers

    [Num n] is the Number value of the integer [n]: the double nearest to
    it, an exact tie going to the even mantissa, and an infinity from
    [2^1024 - 2^970] on. *)

Definition decimal (n : Z) : string :=
  NilZero.string_of_int (Z.to_int n).

(** The Number value of a non-negative integer, as an integer; a result
    from [2^1024] on stands for the infinity. *)
Definition nearest_double (v : Z) : Z :=
  let width := (Z.log2 v + 1)%Z in
  if (width <=? 53)%Z then v
  else
    let shift := (width - 53)%Z in
    let q := Z.shiftr v shift in
    let r := (v - Z.shiftl q shift)%Z in
    let half := Z.shiftl 1 (shift - 1) in
    let q' :=
      if (r <? half)%Z then q
      else if (half <? r)%Z then (q + 1)%Z
      else if Z.even q then q else (q + 1)%Z in
    Z.shiftl q' shift.

Definition is_finite (x : Z) : bool := (x <? 2 ^ 1024)%Z.

(** The pairs [(n, s)] with [s] of [k] digits and [s * 10^(n-k)] of Number
    value [x], where [len] is the number of digits of [x]: on either side of
    [x] the nearest multiple of the power of ten is enough. *)
Definition candidates (x len k : Z) : list (Z * Z) :=
  flat_map
    (fun n =>
       let p := (n - k)%Z in
       if (p <? 0)%Z then []
       else
         let q := (x / 10 ^ p)%Z in
         filter
           (fun c =>
              let s := snd c in
              (10 ^ (k - 1) <=? s)%Z && (s <? 10 ^ k)%Z
              && (nearest_double (s * 10 ^ p) =? x)%Z)
           [(n, q); (n, (q + 1)%Z)])
    [len; (len + 1)%Z].

(** Of two candidates the one nearer to [x], the even one on a tie. *)
Definition closer (x k : Z) (a b : Z * Z) : Z * Z :=
  let distance c := Z.abs (snd c * 10 ^ (fst c - k) - x)%Z in
  if (distance b <? distance a)%Z then b
  else if (distance a <? distance b)%Z then a
  else if Z.even (snd a) then a else b.

(** [(n, k, s)] of Number::toString: the least [k] that has a candidate. *)
Fixpoint shortest (fuel : nat) (x len k : Z) : Z * Z * Z :=
  match fuel with
  | O => (len, len, x)
  | S fuel' =>
      match candidates x len k with
      | [] => shortest fuel' x len (k + 1)%Z
      | c :: cs =>
          let best := fold_left (closer x k) cs c in
          (fst best, k, snd best)
      end
  end.

Fixpoint zeros (n : nat) : string :=
  match n with
  | O => EmptyString
  | S n' => String "0" (zeros n')
  end.

(** Number::toString of a finite positive integral Number: its digits and
    zeros up to twenty-one digits, the exponent form beyond. *)
Definition positive_to_string (x : Z) : string :=
  let len := Z.of_nat (String.length (decimal x)) in
  match shortest 17 x len 1 with
  | (n, k, s) =>
      let digits := decimal s in
      if (n <=? 21)%Z then (digits ++ zeros (Z.to_nat (n - k)))%string
      else
        let exponent := ("e+" ++ decimal (n - 1))%string in
        match digits with
        | String d EmptyString => String d exponent
        | String d rest => String d ("." ++ rest ++ exponent)%string
        | EmptyString => exponent
        end
  end.

(** Whether the Number value of [n] is finite. *)
Definition finite (n : Z) : bool := is_finite (nearest_double (Z.abs n)).

(** Number::toString *)
Definition number_to_string (n : Z) : string :=
  if (n =? 0)%Z then "0"
  else
    let x := nearest_double (Z.abs n) in
    let text := if is_finite x then positive_to_string x else "Infinity" in
    if (n <? 0)%Z then ("-" ++ text)%string else text.

(** *** The order of an object's properties

    The keys that are array indices come first, in ascending order, and the
    others follow in insertion order; of two entries under one key the first
    is the property, as for [lookup]. *)

Definition array_index (k : string) : option Z :=
  match NilEmpty.uint_of_string k with
  | Some d =>
      let i := Z.of_uint d in
      if String.eqb (decimal i) k && (i <=? 4294967294)%Z then Some i else None
  | None => None
  end.

Fixpoint own {A : Type} (seen : list string) (props : list (string * A))
  : list (string * A) :=
  match props with
  | [] => []
  | (k, v) :: rest =>
      if existsb (String.eqb k) seen then own seen rest
      else (k, v) :: own (k :: seen) rest
  end.

Fixpoint insert_index {A : Type} (i : Z) (p : string * A)
    (sorted : list (Z * (string * A))) : list (Z * (string * A)) :=
  match sorted with
  | [] => [(i, p)]
  | (j, q) :: rest =>
      if (i <? j)%Z then (i, p) :: sorted else (j, q) :: insert_index i p rest
  end.

Definition indexed {A : Type} (props : list (string * A)) : list (string * A) :=
  map snd
    (fold_left
       (fun sorted p =>
          match array_index (fst p) with
          | Some i => insert_index i p sorted
          | None => sorted
          end)
       props []).

Definition named {A : Type} (props : list (string * A)) : list (string * A) :=
  filter (fun p => match array_index (fst p) with Some _ => false | None => true end)
         props.

Definition enumerate {A : Type} (props : list (string * A)) : list (string * A) :=
  let properties := own [] props in
  indexed properties ++ named properties.

Fixpoint join (sep : string) (parts : list string) : string :=
  match parts with
  | [] => EmptyString
  | [p] => p
  | p :: rest => (p ++ sep ++ join sep rest)%string
  end.

(** The serialization of a value, [None] where [JSON.stringify] yields
    [undefined].  A Number that is not finite prints as [null]; array
    elements that serialize to [undefined] print as [null]; object
    properties of that kind are left out. *)
Fixpoint serialize (v : Value) : option string :=
  match v with
  | Undefined => None
  | Null => Some "null"
  | Bool true => Some "true"
  | Bool false => Some "false"
  | Num n => Some (if finite n then number_to_string n else "null")
  | Str s => Some (quoted s)
  | Arr items =>
      let item x := match serialize x with Some s => s | None => "null" end in
      Some ("[" ++ join "," (map item items) ++ "]")%string
  | Obj props =>
      let member (p : string * option string) :=
        match snd p with
        | Some s => [(quoted (fst p) ++ ":" ++ s)%string]
        | None => []
        end in
      let texts := map (fun p => (fst p, serialize (snd p))) props in
      Some ("{" ++ join "," (flat_map member (enumerate texts)) ++ "}")%string
  end.

(** [JSON.stringify(v)] as a value. *)
Definition JSON_stringify (v : Value) : Value :=
  match serialize v with
  | Some s => Str s
  | None => Undefined
  end.

End JS.

(** ** The payment-method resolver *)

Module Resolver.

(** A record of the [/paymentMethods] response: its [type] and whatever else
    the backend sent along with it. *)
Record PaymentMethod : Type := {
  type : string;
  details : JS.Object
}.

Record PaymentMethodsResponse : Type := {
  paymentMethods : list PaymentMethod
}.

(** Components created as [card] are matched with records of type [scheme]. *)
Definition mapCreatedComponentType (pmType : string) : string :=
  if String.eqb pmType "card" then "scheme" else pmType.

(** [Array.prototype.find]: the first record that passes the test, if any. *)
Definition find (response : PaymentMethodsResponse) (typeName : string)
  : option PaymentMethod :=
  List.find (fun pm => String.eqb (type pm) (mapCreatedComponentType typeName))
            (paymentMethods response).

End Resolver.

(** ** The checkout provider *)

Module Checkout.
Import Resolver.

(** *** Data *)

Definition Configuration := JS.Object.
Definition SessionConfiguration := JS.Object.

Record SessionResponse : Type := {
  session_paymentMethods : PaymentMethodsResponse;
  session_tokens : JS.Object
}.

(** A native payment module: the event names it declares, and a name that
    tells it from the others. *)
Record AdyenActionComponent : Type := {
  moduleName : string;
  events : list string
}.

(** The second argument of [onError]. *)
Inductive AdyenComponent : Type :=
| Native (nativeComponent : AdyenActionComponent)
| SessionHelper.

(** Modelled from the spec: [./core/constants] is not among the sources; the
    event names are the fixed vocabulary the specification lists. *)
Module Event.
Definition onSubmit : string := "onSubmit".
Definition onError : string := "onError".
Definition onAdditionalDetails : string := "onAdditionalDetails".
Definition onComplete : string := "onComplete".
End Event.

(** A function supplied by the host application, known by its identity. *)
Definition HostCallback := nat.

Record AdyenCheckoutProps : Type := {
  config : Configuration;
  props_paymentMethods : option PaymentMethodsResponse;
  session : option SessionConfiguration;
  onSubmit : option HostCallback;
  onError : HostCallback;
  onAdditionalDetails : option HostCallback;
  onComplete : option HostCallback
}.

(** What a statement completes with: a value, or a thrown exception. *)
Inductive Exception : Type :=
| ConfigurationError (missingField : string)
| PaymentMethodsError (message : string)
| OtherError (message : string).

Inductive Completion (A : Type) : Type :=
| Normal (a : A)
| Throw (e : Exception).
Arguments Normal {A} a.
Arguments Throw {A} e.

(** *** The event emitter of the platform

    [addListener] registers a listener under an event name and returns a
    subscription; [remove] on a subscription unregisters it and does nothing
    when it is no longer registered; a native event runs the listeners
    registered under its name, in registration order. *)

Record EmitterSubscription : Type := {
  key : nat;
  eventType : string
}.

(** The closures [startEventListeners] hands to [addListener], as the
    variables they capture. *)
Inductive Listener : Type :=
| SubmitListener (configuration : Configuration)
                 (nativeComponent : AdyenActionComponent)
                 (onSubmit : option HostCallback)
| ErrorListener (nativeComponent : AdyenActionComponent) (onError : HostCallback)
| AdditionalDetailsListener (nativeComponent : AdyenActionComponent)
                            (onAdditionalDetails : option HostCallback)
| CompleteListener (nativeComponent : AdyenActionComponent)
                   (onComplete : option HostCallback).

Record Registration : Type := {
  subscription : EmitterSubscription;
  listener : Listener
}.

(** The body of a native [onSubmit] event. *)
Record SubmitResponse : Type := {
  paymentData : JS.Object;
  extra : JS.Value
}.

Inductive NativeEvent : Type :=
| SubmitEvent (response : SubmitResponse)
| ErrorEvent (error : JS.Object)
| AdditionalDetailsEvent (data : JS.Value)
| CompleteEvent (data : JS.Value).

Definition eventName (ev : NativeEvent) : string :=
  match ev with
  | SubmitEvent _ => Event.onSubmit
  | ErrorEvent _ => Event.onError
  | AdditionalDetailsEvent _ => Event.onAdditionalDetails
  | CompleteEvent _ => Event.onComplete
  end.

(** *** Effects and state *)

(** Calls that leave the provider: into the native module, into the host's
    callbacks, on a subscription, and to the session backend. *)
Inductive Effect : Type :=
| NativeHide (nativeComponent : AdyenActionComponent) (animated : bool)
| NativeOpen (nativeComponent : AdyenActionComponent)
             (paymentMethods : PaymentMethodsResponse)
             (configuration : Configuration)
| HostOnSubmit (callback : HostCallback) (payload : JS.Object)
               (nativeComponent : AdyenActionComponent) (extra : JS.Value)
| HostOnError (callback : HostCallback) (error : JS.Object)
              (component : AdyenComponent)
| HostOnAdditionalDetails (callback : HostCallback) (data : JS.Value)
                          (nativeComponent : AdyenActionComponent)
| HostOnComplete (callback : HostCallback) (data : JS.Value)
                 (nativeComponent : AdyenActionComponent)
| SubscriptionRemove (s : EmitterSubscription)
| SessionHelperCreateSession (session : option SessionConfiguration)
                             (configuration : Configuration).

Record State : Type := {
  registry : list Registration;          (* listeners the emitter holds *)
  nextKey : nat;                         (* key of the next subscription *)
  subscriptions : list EmitterSubscription;   (* [subscriptions.current] *)
  sessionStorage : option SessionResponse     (* the [useState] cell *)
}.

Definition initialState : State :=
  {| registry := []; nextKey := 0; subscriptions := []; sessionStorage := None |}.

(** A computation: from a state to a completion, the state it leaves and the
    effects it performed, oldest first.  An exception keeps both. *)
Definition M (A : Type) : Type := State -> Completion A * State * list Effect.

Definition ret {A} (a : A) : M A := fun st => (Normal a, st, []).

Definition bind {A B} (m : M A) (f : A -> M B) : M B := fun st =>
  match m st with
  | (Normal a, st1, log1) =>
      match f a st1 with
      | (r, st2, log2) => (r, st2, log1 ++ log2)
      end
  | (Throw e, st1, log1) => (Throw e, st1, log1)
  end.

Notation "x <- m ;; k" := (bind m (fun x => k))
  (at level 61, m at next level, right associativity).
Notation "m ;; k" := (bind m (fun _ => k))
  (at level 61, right associativity).

Definition perform (e : Effect) : M unit := fun st => (Normal tt, st, [e]).

Definition lift {A} (c : Completion A) : M A := fun st => (c, st, []).

Definition completion {A} (r : Completion A * State * list Effect) : Completion A :=
  fst (fst r).
Definition final {A} (r : Completion A * State * list Effect) : State :=
  snd (fst r).
Definition effects {A} (r : Completion A * State * list Effect) : list Effect :=
  snd r.

(** [xs.forEach(f)] *)
Fixpoint forEach {A} (xs : list A) (f : A -> M unit) : M unit :=
  match xs with
  | [] => ret tt
  | x :: rest => f x ;; forEach rest f
  end.

Definition addListener (name : string) (l : Listener) : M EmitterSubscription :=
  fun st =>
    let s := {| key := nextKey st; eventType := name |} in
    (Normal s,
     {| registry := registry st ++ [{| subscription := s; listener := l |}];
        nextKey := S (nextKey st);
        subscriptions := subscriptions st;
        sessionStorage := sessionStorage st |},
     []).

(** [s.remove()] *)
Definition remove (s : EmitterSubscription) : M unit := fun st =>
  (Normal tt,
   {| registry :=
        filter (fun r => negb (Nat.eqb (key (subscription r)) (key s))) (registry st);
      nextKey := nextKey st;
      subscriptions := subscriptions st;
      sessionStorage := sessionStorage st |},
   [SubscriptionRemove s]).

(** [subscriptions.current = subs] *)
Definition setSubscriptions (subs : list EmitterSubscription) : M unit := fun st =>
  (Normal tt,
   {| registry := registry st;
      nextKey := nextKey st;
      subscriptions := subs;
      sessionStorage := sessionStorage st |},
   []).

(** [subscriptions.current.push(s)] *)
Definition pushSubscription (s : EmitterSubscription) : M unit := fun st =>
  setSubscriptions (subscriptions st ++ [s]) st.

Definition setSession (sessionResponse : SessionResponse) : M unit := fun st =>
  (Normal tt,
   {| registry := registry st;
      nextKey := nextKey st;
      subscriptions := subscriptions st;
      sessionStorage := Some sessionResponse |},
   []).

(** [callback?.(...)]: nothing happens when the host gave no callback. *)
Definition optionalCall (callback : option HostCallback)
                        (call : HostCallback -> Effect) : M unit :=
  match callback with
  | Some f => perform (call f)
  | None => ret tt
  end.

(** *** The provider's functions *)

Definition submitPayment (onSubmit : option HostCallback)
    (configuration : Configuration) (data : JS.Object)
    (nativeComponent : AdyenActionComponent) (extra : JS.Value) : M unit :=
  let payload :=
    JS.spread_with data "returnUrl"
      (JS.coalesce (JS.get data "returnUrl") (JS.get configuration "returnUrl")) in
  optionalCall onSubmit (fun f => HostOnSubmit f payload nativeComponent extra).

Definition removeEventListeners : M unit := fun st =>
  forEach (subscriptions st) remove st.

(** What a registered closure does with the event it is handed.  A closure
    never meets the body of another event: the emitter selects by name. *)
Definition runListener (l : Listener) (ev : NativeEvent) : M unit :=
  match l, ev with
  | SubmitListener configuration nativeComponent onSubmit, SubmitEvent response =>
      perform (NativeHide nativeComponent false) ;;
      submitPayment onSubmit configuration (paymentData response)
                    nativeComponent (extra response)
  | ErrorListener nativeComponent onError, ErrorEvent error =>
      (if JS.strict_eq_string (JS.get error "errorCode") "canceledByShopper"
       then perform (NativeHide nativeComponent false)
       else ret tt) ;;
      perform (HostOnError onError error (Native nativeComponent))
  | AdditionalDetailsListener nativeComponent onAdditionalDetails,
    AdditionalDetailsEvent data =>
      optionalCall onAdditionalDetails
        (fun f => HostOnAdditionalDetails f data nativeComponent)
  | CompleteListener nativeComponent onComplete, CompleteEvent data =>
      optionalCall onComplete (fun f => HostOnComplete f data nativeComponent)
  | _, _ => ret tt
  end.

(** The registrations a native event is delivered to. *)
Definition listenersFor (name : string) (st : State) : list Registration :=
  filter (fun r => String.eqb (eventType (subscription r)) name) (registry st).

(** The native side emits [ev]. *)
Definition emit (ev : NativeEvent) : M unit := fun st =>
  forEach (listenersFor (eventName ev) st) (fun r => runListener (listener r) ev) st.

Definition includes (names : list string) (name : string) : bool :=
  existsb (String.eqb name) names.

Definition startEventListeners (props : AdyenCheckoutProps)
    (configuration : Configuration) (nativeComponent : AdyenActionComponent)
  : M unit :=
  s1 <- addListener Event.onSubmit
          (SubmitListener configuration nativeComponent (onSubmit props)) ;;
  s2 <- addListener Event.onError
          (ErrorListener nativeComponent (onError props)) ;;
  setSubscriptions [s1; s2] ;;
  (if includes (events nativeComponent) Event.onAdditionalDetails
   then s <- addListener Event.onAdditionalDetails
               (AdditionalDetailsListener nativeComponent (onAdditionalDetails props)) ;;
        pushSubscription s
   else ret tt) ;;
  (if includes (events nativeComponent) Event.onComplete
   then s <- addListener Event.onComplete
               (CompleteListener nativeComponent (onComplete props)) ;;
        pushSubscription s
   else ret tt).

(** [paymentMethods ?? sessionStorage?.paymentMethods] *)
Definition effectivePaymentMethods (props : AdyenCheckoutProps) (st : State)
  : option PaymentMethodsResponse :=
  match props_paymentMethods props with
  | Some response => Some response
  | None => option_map session_paymentMethods (sessionStorage st)
  end.

(** [{...config, dropin: {skipListWhenSinglePaymentMethod: true}}] *)
Definition singlePaymentConfig (config : Configuration) : Configuration :=
  JS.spread_with config "dropin"
    (JS.Obj [("skipListWhenSinglePaymentMethod", JS.Bool true)]).

Section Provider.

(** The functions [start] imports from modules that are not among the
    sources: [checkPaymentMethodsResponse] and [checkConfiguration] of
    [./core/utils] and [getNativeComponent].  Each returns or throws. *)
Variable checkPaymentMethodsResponse :
  option PaymentMethodsResponse -> Completion PaymentMethodsResponse.
Variable getNativeComponent :
  string -> PaymentMethodsResponse ->
  Completion (AdyenActionComponent * option PaymentMethod).
Variable checkConfiguration : Configuration -> Completion unit.

Definition start (props : AdyenCheckoutProps) (typeName : string) : M unit :=
  removeEventListeners ;;
  currentPaymentMethods <-
    (fun st => lift (checkPaymentMethodsResponse (effectivePaymentMethods props st)) st) ;;
  resolved <- lift (getNativeComponent typeName currentPaymentMethods) ;;
  let nativeComponent := fst resolved in
  let paymentMethod := snd resolved in
  lift (checkConfiguration (config props)) ;;
  startEventListeners props (config props) nativeComponent ;;
  match paymentMethod with
  | Some pm =>
      let singlePaymentMethods := {| paymentMethods := [pm] |} in
      perform (NativeOpen nativeComponent singlePaymentMethods
                          (singlePaymentConfig (config props)))
  | None =>
      perform (NativeOpen nativeComponent currentPaymentMethods (config props))
  end.

End Provider.

(** How the promise of [SessionHelper.createSession] settles. *)
Inductive Settlement : Type :=
| Fulfilled (sessionResponse : SessionResponse)
| Rejected (e : JS.Value).

Definition createSession (props : AdyenCheckoutProps) (backend : Settlement)
  : M unit :=
  perform (SessionHelperCreateSession (session props) (config props)) ;;
  match backend with
  | Fulfilled sessionResponse => setSession sessionResponse
  | Rejected e =>
      perform (HostOnError (onError props)
                 [("message", JS.JSON_stringify e);
                  ("errorCode", JS.Str "sessionError")]
                 SessionHelper)
  end.

End Checkout.

(** ** The imported helpers, from the specification *)

Module Imported.
Import Resolver Checkout.

(** The fields a configuration must carry. *)
Definition mandatoryFields : list string := ["environment"; "clientKey"].

Definition missing (config : Configuration) (field : string) : bool :=
  JS.nullish (JS.get config field).

(** Modelled from the spec: [checkConfiguration] of [./core/utils] is not
    among the sources.  The validator checks that the mandatory environment
    and client-key fields are present and fails with a configuration error
    naming the first one that is missing. *)
Definition checkConfiguration (config : Configuration) : Completion unit :=
  match List.find (missing config) mandatoryFields with
  | Some field => Throw (ConfigurationError field)
  | None => Normal tt
  end.

(** Modelled from the spec: [checkPaymentMethodsResponse] of [./core/utils]
    is not among the sources.  The effective catalog is handed on when there
    is one and it is not empty; otherwise a structured error is raised. *)
Definition checkPaymentMethodsResponse (response : option PaymentMethodsResponse)
  : Completion PaymentMethodsResponse :=
  match response with
  | None => Throw (PaymentMethodsError "payment methods are not available")
  | Some r =>
      match paymentMethods r with
      | [] => Throw (PaymentMethodsError "payment methods are empty")
      | _ :: _ => Normal r
      end
  end.

(** Modelled from the spec: [./getNativeComponent] is not among the sources.
    The record is resolved with [find]; finding none is not an error here.
    Which native module serves a type name is the static classification the
    specification leaves outside, taken as [moduleFor]. *)
Definition getNativeComponent (moduleFor : string -> AdyenActionComponent)
    (typeName : string) (response : PaymentMethodsResponse)
  : Completion (AdyenActionComponent * option PaymentMethod) :=
  Normal (moduleFor typeName, find response typeName).

End Imported.

(** ** The instant-payment bottom sheet (Android) *)

Module InstantFragment.

Inductive InstantViewState : Type :=
| Loading
| Error (errorMessage : string)
| ShowComponent.

(** A widget of the layout: what [isVisible] and [text] read. *)
Record View : Type := {
  isVisible : bool;
  text : string
}.

Record FragmentInstantBinding : Type := {
  errorView : View;
  progressIndicator : View;
  componentContainer : View
}.

(** The fragment, as far as [onViewState] touches it. *)
Record Fragment : Type := {
  _binding : option FragmentInstantBinding
}.

Definition setVisible (b : bool) (v : View) : View :=
  {| isVisible := b; text := text v |}.
Definition setText (s : string) (v : View) : View :=
  {| isVisible := isVisible v; text := s |}.

Definition onErrorView (f : View -> View) (b : FragmentInstantBinding) :=
  {| errorView := f (errorView b);
     progressIndicator := progressIndicator b;
     componentContainer := componentContainer b |}.
Definition onProgressIndicator (f : View -> View) (b : FragmentInstantBinding) :=
  {| errorView := errorView b;
     progressIndicator := f (progressIndicator b);
     componentContainer := componentContainer b |}.
Definition onComponentContainer (f : View -> View) (b : FragmentInstantBinding) :=
  {| errorView := errorView b;
     progressIndicator := progressIndicator b;
     componentContainer := f (componentContainer b) |}.

(** A statement [binding.w.p = x]: the getter [binding] is
    [requireNotNull(_binding)], so the statement throws ([None]) when the view
    is gone. *)
Definition assign (update : FragmentInstantBinding -> FragmentInstantBinding)
                  (fragment : Fragment) : option Fragment :=
  match _binding fragment with
  | Some b => Some {| _binding := Some (update b) |}
  | None => None
  end.

Definition andThen (m : option Fragment) (k : Fragment -> option Fragment)
  : option Fragment :=
  match m with
  | Some f => k f
  | None => None
  end.

Definition onViewState (viewState : InstantViewState) (fragment : Fragment)
  : option Fragment :=
  match viewState with
  | Error errorMessage =>
      andThen (assign (onErrorView (setVisible true)) fragment) (fun f1 =>
      andThen (assign (onErrorView (setText errorMessage)) f1) (fun f2 =>
      andThen (assign (onProgressIndicator (setVisible false)) f2) (fun f3 =>
      assign (onComponentContainer (setVisible false)) f3)))
  | Loading =>
      andThen (assign (onProgressIndicator (setVisible true)) fragment) (fun f1 =>
      andThen (assign (onErrorView (setVisible false)) f1) (fun f2 =>
      assign (onComponentContainer (setVisible false)) f2))
  | ShowComponent =>
      andThen (assign (onProgressIndicator (setVisible false)) fragment) (fun f1 =>
      andThen (assign (onErrorView (setVisible false)) f1) (fun f2 =>
      assign (onComponentContainer (setVisible true)) f2))
  end.

(** How many of the three widgets are visible. *)
Definition visibleCount (b : FragmentInstantBinding) : nat :=
  (if isVisible (errorView b) then 1 else 0)
  + (if isVisible (progressIndicator b) then 1 else 0)
  + (if isVisible (componentContainer b) then 1 else 0).

(** The widget a view state asks for is visible. *)
Definition shows (viewState : InstantViewState) (b : FragmentInstantBinding) : Prop :=
  match viewState with
  | Error errorMessage =>
      isVisible (errorView b) = true /\ text (errorView b) = errorMessage
  | Loading => isVisible (progressIndicator b) = true
  | ShowComponent => isVisible (componentContainer b) = true
  end.

End InstantFragment.

(** ** Observations and histories *)

Module Observe.
Import Resolver Checkout.

Definition isOpen (e : Effect) : bool :=
  match e with NativeOpen _ _ _ => true | _ => false end.

Definition isHostError (e : Effect) : bool :=
  match e with HostOnError _ _ _ => true | _ => false end.

Definition isHostSubmit (e : Effect) : bool :=
  match e with HostOnSubmit _ _ _ _ => true | _ => false end.

Definition isCreateSession (e : Effect) : bool :=
  match e with SessionHelperCreateSession _ _ => true | _ => false end.

Definition isRemove (e : Effect) : bool :=
  match e with SubscriptionRemove _ => true | _ => false end.

Definition isRemoveOf (s : EmitterSubscription) (e : Effect) : bool :=
  match e with
  | SubscriptionRemove s' => Nat.eqb (key s') (key s)
  | _ => false
  end.

(** How many effects of a log pass a test. *)
Definition count (test : Effect -> bool) (log : list Effect) : nat :=
  length (filter test log).

(** The registration belongs to one of the subscriptions [subs]. *)
Definition heldBy (subs : list EmitterSubscription) (r : Registration) : bool :=
  existsb (fun s => Nat.eqb (key (subscription r)) (key s)) subs.

(** Every listener the emitter holds belongs to the subscription set that
    [subscriptions.current] refers to: nothing is live outside that set. *)
Definition owned (st : State) : bool :=
  forallb (heldBy (subscriptions st)) (registry st).

(** The state after [remove] was called on each of [subs]. *)
Definition released (subs : list EmitterSubscription) (st : State) : State :=
  {| registry := filter (fun r => negb (heldBy subs r)) (registry st);
     nextKey := nextKey st;
     subscriptions := subscriptions st;
     sessionStorage := sessionStorage st |}.

(** The registrations [startEventListeners] creates when the next free key
    is [k]. *)
Definition attached (props : AdyenCheckoutProps) (configuration : Configuration)
    (nativeComponent : AdyenActionComponent) (k : nat) : list Registration :=
  let details :=
    if includes (events nativeComponent) Event.onAdditionalDetails
    then [{| subscription := {| key := S (S k); eventType := Event.onAdditionalDetails |};
             listener := AdditionalDetailsListener nativeComponent
                           (onAdditionalDetails props) |}]
    else [] in
  [{| subscription := {| key := k; eventType := Event.onSubmit |};
      listener := SubmitListener configuration nativeComponent (onSubmit props) |};
   {| subscription := {| key := S k; eventType := Event.onError |};
      listener := ErrorListener nativeComponent (onError props) |}]
  ++ details
  ++ (if includes (events nativeComponent) Event.onComplete
      then [{| subscription := {| key := length details + S (S k);
                                  eventType := Event.onComplete |};
               listener := CompleteListener nativeComponent (onComplete props) |}]
      else []).

(** The state [startEventListeners] leaves. *)
Definition attachedState (props : AdyenCheckoutProps) (configuration : Configuration)
    (nativeComponent : AdyenActionComponent) (st : State) : State :=
  let regs := attached props configuration nativeComponent (nextKey st) in
  {| registry := registry st ++ regs;
     nextKey := length regs + nextKey st;
     subscriptions := map subscription regs;
     sessionStorage := sessionStorage st |}.

(** What a registered closure does with an event, as a list of effects. *)
Definition reaction (l : Listener) (ev : NativeEvent) : list Effect :=
  effects (runListener l ev initialState).

Section Histories.

Variable checkPaymentMethodsResponse :
  option PaymentMethodsResponse -> Completion PaymentMethodsResponse.
Variable getNativeComponent :
  string -> PaymentMethodsResponse ->
  Completion (AdyenActionComponent * option PaymentMethod).
Variable checkConfiguration : Configuration -> Completion unit.

(** What can happen to a mounted provider. *)
Inductive Operation : Type :=
| Start (props : AdyenCheckoutProps) (typeName : string)
| Unmount
| Emit (ev : NativeEvent)
| CreateSession (props : AdyenCheckoutProps) (backend : Settlement).

Definition operate (op : Operation) : M unit :=
  match op with
  | Start props typeName =>
      start checkPaymentMethodsResponse getNativeComponent checkConfiguration
            props typeName
  | Unmount => removeEventListeners
  | Emit ev => emit ev
  | CreateSession props backend => createSession props backend
  end.

(** The state a sequence of operations leaves; a call that throws leaves the
    state it had reached. *)
Fixpoint after (ops : list Operation) (st : State) : State :=
  match ops with
  | [] => st
  | op :: rest => after rest (final (operate op st))
  end.

End Histories.

End Observe.

(** ** Sample data *)

Module Sample.
Import Resolver Checkout.

Definition scheme : PaymentMethod := {| type := "scheme"; details := [] |}.
Definition ideal : PaymentMethod := {| type := "ideal"; details := [] |}.
Definition literalCard : PaymentMethod := {| type := "card"; details := [] |}.

Definition catalogA : PaymentMethodsResponse := {| paymentMethods := [scheme] |}.
Definition catalogB : PaymentMethodsResponse := {| paymentMethods := [ideal; scheme] |}.

Definition nativeModule : AdyenActionComponent :=
  {| moduleName := "AdyenDropIn";
     events := ["onSubmit"; "onError"; "onAdditionalDetails"; "onComplete"] |}.

Definition moduleFor (typeName : string) : AdyenActionComponent := nativeModule.

Definition validConfig : Configuration :=
  [("environment", JS.Str "test");
   ("clientKey", JS.Str "test_key");
   ("returnUrl", JS.Str "myapp://payment");
   ("dropin", JS.Obj [("showPreselectedStoredPaymentMethod", JS.Bool false)])].

Definition configWithoutEnvironment : Configuration :=
  [("clientKey", JS.Str "test_key"); ("returnUrl", JS.Str "myapp://payment")].

Definition propsWith (config : Configuration)
    (catalog : option PaymentMethodsResponse) : AdyenCheckoutProps :=
  {| config := config;
     props_paymentMethods := catalog;
     session := None;
     onSubmit := Some 1;
     onError := 2;
     onAdditionalDetails := Some 3;
     onComplete := Some 4 |}.

Definition sessionProps : AdyenCheckoutProps :=
  {| config := validConfig;
     props_paymentMethods := None;
     session := Some [("id", JS.Str "CS1"); ("sessionData", JS.Str "abc")];
     onSubmit := Some 1;
     onError := 2;
     onAdditionalDetails := None;
     onComplete := None |}.

(** The provider with the helpers as the specification describes them. *)
Definition start : AdyenCheckoutProps -> string -> M unit :=
  Checkout.start Imported.checkPaymentMethodsResponse
                 (Imported.getNativeComponent moduleFor)
                 Imported.checkConfiguration.

Definition validProps : AdyenCheckoutProps := propsWith validConfig (Some catalogA).

Definition invalidProps : AdyenCheckoutProps :=
  propsWith configWithoutEnvironment (Some catalogA).

Definition canceled : JS.Object :=
  [("errorCode", JS.Str "canceledByShopper"); ("message", JS.Str "Canceled")].

Definition submitted : SubmitResponse :=
  {| paymentData := [("paymentMethod", JS.Obj [("type", JS.Str "scheme")])];
     extra := JS.Undefined |}.

End Sample.

(** ** The component tables *)

Module ComponentMap.

(** Payment methods that might be taken for redirects but are not supported,
    and the voucher, gift card, open invoice and wallet methods that are not
    supported yet. *)
Definition UNSUPPORTED_PAYMENT_METHODS : list string :=
  ["wechatpayMiniProgram"; "wechatpayQR"; "wechatpayWeb"; "afterpay_default";
   "amazonpay"; "qiwiwallet"; "ratepay"; "ratepay_directdebit";
   "bcmc_mobile_QR"; "doku"; "doku_alfamart"; "doku_permata_lite_atm";
   "doku_indomaret"; "doku_atm_mandiri_va"; "doku_sinarmas_va";
   "doku_mandiri_va"; "doku_cimb_va"; "doku_danamon_va"; "doku_bri_va";
   "doku_bni_va"; "doku_bca_va"; "doku_wallet"; "oxxo"; "multibanco";
   "econtext_atm"; "econtext_online"; "econtext_seven_eleven";
   "econtext_stores"; "dragonpay_ebanking"; "dragonpay_otc_banking";
   "dragonpay_otc_non_banking"; "dragonpay_otc_philippines"; "giftcard";
   "mealVoucher_FR_natixis"; "mealVoucher_FR_sodexo";
   "mealVoucher_FR_groupeup"; "affirm"; "atome"; "cashapp"; "clicktopay";
   "wechatpaySDK"].

(** The types served by a native component. *)
Definition NATIVE_COMPONENTS : list string :=
  ["card"; "scheme"; "bcmc"; "billdesk_online"; "billdesk_wallet"; "dotpay";
   "entercash"; "eps"; "ideal"; "molpay_ebanking_fpx_MY";
   "molpay_ebanking_TH"; "molpay_ebanking_VN"; "onlineBanking";
   "onlineBanking_CZ"; "onlinebanking_IN"; "onlineBanking_PL";
   "onlineBanking_SK"; "paybybank"; "wallet_IN"; "blik"; "mbway"; "upi";
   "upi_qr"; "upi_collect"; "ach"; "directdebit_GB"; "sepadirectdebit";
   "boletobancario"; "boletobancario_bancodobrasil";
   "boletobancario_bradesco"; "boletobancario_hsbc"; "boletobancario_itau";
   "boletobancario_santander"; "primeiropay_boleto"].

End ComponentMap.

(** ** The provider over its lifetime *)

Module Lifecycle.
Import Resolver Checkout Observe.

(** The state with another value in the session cell. *)
Definition withSession (stored : option SessionResponse) (st : State) : State :=
  {| registry := registry st;
     nextKey := nextKey st;
     subscriptions := subscriptions st;
     sessionStorage := stored |}.

(** The response of the last session creation that was fulfilled, [stored]
    when there was none. *)
Fixpoint latestSession (ops : list Operation) (stored : option SessionResponse)
  : option SessionResponse :=
  match ops with
  | [] => stored
  | CreateSession _ (Fulfilled sessionResponse) :: rest =>
      latestSession rest (Some sessionResponse)
  | _ :: rest => latestSession rest stored
  end.

(** No unmount among the operations: the provider stays mounted, and with
    it the cell that holds the session. *)
Definition staysMounted (ops : list Operation) : bool :=
  forallb (fun op => match op with Unmount => false | _ => true end) ops.

(** Anything but a [remove] on a subscription or the native [open]. *)
Definition isOtherCall (e : Effect) : bool :=
  negb (isRemove e) && negb (isOpen e).

End Lifecycle.

(** ** The rest of the instant-payment bottom sheet *)

Module InstantFlow.
Import InstantFragment.

(** Values of the checkout library that the fragment only passes on. *)
Definition Action := string.
Definition Intent := string.
Definition InstantPaymentConfiguration := string.
Definition ComponentCallback := nat.

Record InstantComponentData : Type := {
  paymentMethod : string;
  callback : ComponentCallback
}.

(** What [InstantPaymentComponent.PROVIDER.get] was given. *)
Record InstantPaymentComponent : Type := {
  component_paymentMethod : string;
  component_configuration : InstantPaymentConfiguration;
  component_callback : ComponentCallback
}.

Inductive InstantEvent : Type :=
| AdditionalAction (action : Action)
| PaymentResult (result : string).

(** The fragment's arguments: string extras, by key. *)
Definition Bundle := list (string * string).

Fixpoint getString (key : string) (b : Bundle) : option string :=
  match b with
  | [] => None
  | (k, v) :: rest => if String.eqb k key then Some v else getString key rest
  end.

Fixpoint putString (key value : string) (b : Bundle) : Bundle :=
  match b with
  | [] => [(key, value)]
  | (k, v) :: rest =>
      if String.eqb k key then (k, value) :: rest
      else (k, v) :: putString key value rest
  end.

Definition TAG : string := "InstantFragment".
Definition PAYMENT_METHOD_TYPE_EXTRA : string := "PAYMENT_METHOD_TYPE_EXTRA".
Definition RETURN_URL_EXTRA : string := "RETURN_URL_EXTRA".
Definition RETURN_URL_PATH : string := "/instant".

(** The fragment: the constructor's configuration, the view binding, the
    component and the arguments. *)
Record Host : Type := {
  configuration : InstantPaymentConfiguration;
  view : Fragment;
  instantPaymentComponent : option InstantPaymentComponent;
  arguments : option Bundle
}.

(** Calls that leave the fragment. *)
Inductive Call : Type :=
| Attach (component : InstantPaymentComponent)
| HandleIntent (component : InstantPaymentComponent) (intent : Intent)
| HandleAction (component : InstantPaymentComponent) (action : Action)
| ToastShow (text : string)
| Dismiss.

(** How a function ends: it returns, or [requireNotNull] throws. *)
Inductive Ending : Type :=
| Returns
| Throws.

Definition Outcome : Type := Ending * Host * list Call.

Definition ending (o : Outcome) : Ending := fst (fst o).
Definition host (o : Outcome) : Host := snd (fst o).
Definition calls (o : Outcome) : list Call := snd o.

(** The fragment [show] creates: only the payment-method type among its
    arguments, no view and no component yet. *)
Definition created (configuration : InstantPaymentConfiguration)
    (paymentMethodType : string) : Host :=
  {| configuration := configuration;
     view := {| _binding := None |};
     instantPaymentComponent := None;
     arguments := Some [(PAYMENT_METHOD_TYPE_EXTRA, paymentMethodType)] |}.

(** [onCreateView]: [applicationReturnUrl] is what
    [RedirectComponent.getReturnUrl] answers and [inflated] the binding the
    layout inflates to. *)
Definition onCreateView (applicationReturnUrl : string)
    (inflated : FragmentInstantBinding) (h : Host) : Outcome :=
  let returnUrl := (applicationReturnUrl ++ RETURN_URL_PATH)%string in
  let bundle := match arguments h with Some b => b | None => [] end in
  (Returns,
   {| configuration := configuration h;
      view := {| _binding := Some inflated |};
      instantPaymentComponent := instantPaymentComponent h;
      arguments := Some (putString RETURN_URL_EXTRA returnUrl bundle) |},
   []).

(** [instantPaymentComponent?.handleIntent(intent)] *)
Definition onNewIntent (intent : Intent) (h : Host) : Outcome :=
  match instantPaymentComponent h with
  | Some component => (Returns, h, [HandleIntent component intent])
  | None => (Returns, h, [])
  end.

(** The component is stored before the binding is asked for. *)
Definition setupInstantComponent (componentData : InstantComponentData)
    (h : Host) : Outcome :=
  let component :=
    {| component_paymentMethod := paymentMethod componentData;
       component_configuration := configuration h;
       component_callback := callback componentData |} in
  let h' :=
    {| configuration := configuration h;
       view := view h;
       instantPaymentComponent := Some component;
       arguments := arguments h |} in
  match _binding (view h') with
  | Some _ => (Returns, h', [Attach component])
  | None => (Throws, h', [])
  end.

(** [instantPaymentComponent?.handleAction(action, requireActivity())] *)
Definition onAction (action : Action) (h : Host) : Outcome :=
  match instantPaymentComponent h with
  | Some component => (Returns, h, [HandleAction component action])
  | None => (Returns, h, [])
  end.

Definition onPaymentResult (result : string) (h : Host) : Outcome :=
  (Returns, h, [ToastShow result; Dismiss]).

Definition onEvent (event : InstantEvent) (h : Host) : Outcome :=
  match event with
  | AdditionalAction action => onAction action h
  | PaymentResult result => onPaymentResult result h
  end.

(** [onViewState] on the whole fragment. *)
Definition onViewState (viewState : InstantViewState) (h : Host) : Outcome :=
  match InstantFragment.onViewState viewState (view h) with
  | Some f =>
      (Returns,
       {| configuration := configuration h;
          view := f;
          instantPaymentComponent := instantPaymentComponent h;
          arguments := arguments h |},
       [])
  | None => (Throws, h, [])
  end.

Definition onDestroyView (h : Host) : Outcome :=
  (Returns,
   {| configuration := configuration h;
      view := {| _binding := None |};
      instantPaymentComponent := None;
      arguments := arguments h |},
   []).

(** What reaches the fragment between [onCreateView] and [onDestroyView]:
    the items of the three collected flows, and new intents. *)
Inductive Input : Type :=
| ComponentData (componentData : InstantComponentData)
| Event (event : InstantEvent)
| ViewState (viewState : InstantViewState)
| NewIntent (intent : Intent).

Definition receive (input : Input) (h : Host) : Outcome :=
  match input with
  | ComponentData componentData => setupInstantComponent componentData h
  | Event event => onEvent event h
  | ViewState viewState => onViewState viewState h
  | NewIntent intent => onNewIntent intent h
  end.

(** The inputs in order; an exception ends it. *)
Fixpoint receiveAll (inputs : list Input) (h : Host) : Outcome :=
  match inputs with
  | [] => (Returns, h, [])
  | input :: rest =>
      match receive input h with
      | (Returns, h1, calls1) =>
          match receiveAll rest h1 with
          | (e, h2, calls2) => (e, h2, calls1 ++ calls2)
          end
      | (Throws, h1, calls1) => (Throws, h1, calls1)
      end
  end.

(** The binding of the fragment's view, when it has one. *)
Definition binding (h : Host) : option FragmentInstantBinding :=
  _binding (view h).

(** The last view state among the inputs. *)
Fixpoint lastViewState (inputs : list Input) (earlier : option InstantViewState)
  : option InstantViewState :=
  match inputs with
  | [] => earlier
  | ViewState viewState :: rest => lastViewState rest (Some viewState)
  | _ :: rest => lastViewState rest earlier
  end.

(** The component the last component data among the inputs sets up. *)
Fixpoint lastComponent (config : InstantPaymentConfiguration)
    (inputs : list Input) (earlier : option InstantPaymentComponent)
  : option InstantPaymentComponent :=
  match inputs with
  | [] => earlier
  | ComponentData componentData :: rest =>
      lastComponent config rest
        (Some {| component_paymentMethod := paymentMethod componentData;
                 component_configuration := config;
                 component_callback := callback componentData |})
  | _ :: rest => lastComponent config rest earlier
  end.

Definition sampleBinding : FragmentInstantBinding :=
  {| errorView := {| isVisible := false; text := "" |};
     progressIndicator := {| isVisible := true; text := "" |};
     componentContainer := {| isVisible := false; text := "" |} |}.

Definition sampleHost : Host :=
  host (onCreateView "adyencheckout://com.example" sampleBinding
          (created "test-configuration" "paybybank")).

End InstantFlow.

(** ** A rejection of the session backend *)

Module Rejection.

Definition q : string := String JS.quote EmptyString.
Definition bs : string := String JS.backslash EmptyString.

(** A reason with a quote, a backslash, a line feed and a control
    character in it. *)
Definition reason : string :=
  ("a" ++ q ++ "b" ++ bs ++ "c" ++ String "010" "d" ++ String "001" "e")%string.

(** [{code: 500, reason, values: [null, true, false, -3, undefined, [], {}],
    cause: undefined, elapsed: 1e21, 7: "seven"}] *)
Definition value : JS.Value :=
  JS.Obj
    [("code", JS.Num 500);
     ("reason", JS.Str reason);
     ("values",
      JS.Arr [JS.Null; JS.Bool true; JS.Bool false; JS.Num (-3); JS.Undefined;
              JS.Arr []; JS.Obj []]);
     ("cause", JS.Undefined);
     ("elapsed", JS.Num (10 ^ 21));
     ("7", JS.Str "seven")].

(** What [JSON.stringify] makes of it. *)
Definition text : string :=
  ("{" ++ q ++ "7" ++ q ++ ":" ++ q ++ "seven" ++ q ++ ","
   ++ q ++ "code" ++ q ++ ":500,"
   ++ q ++ "reason" ++ q ++ ":"
   ++ q ++ "a" ++ bs ++ q ++ "b" ++ bs ++ bs ++ "c" ++ bs ++ "nd"
   ++ bs ++ "u0001e" ++ q ++ ","
   ++ q ++ "values" ++ q ++ ":[null,true,false,-3,null,[],{}],"
   ++ q ++ "elapsed" ++ q ++ ":1e+21}")%string.

End Rejection.

(* ================================================================== *)
(** * Part II: properties *)
(* ================================================================== *)

(** ** Objects *)

Lemma lookup_set_same (o : JS.Object) (k : string) (v : JS.Value) :
  JS.lookup (JS.set o k v) k = Some v.
Proof.
  induction o as [| [k' v'] rest IH]; simpl.
  - now rewrite String.eqb_refl.
  - destruct (String.eqb k' k) eqn:E; simpl; rewrite E; auto.
Qed.

Lemma lookup_set_other (o : JS.Object) (k k' : string) (v : JS.Value) :
  k' <> k -> JS.lookup (JS.set o k v) k' = JS.lookup o k'.
Proof.
  intros Hne.
  induction o as [| [k0 v0] rest IH]; simpl.
  - destruct (String.eqb k k') eqn:E; auto.
    apply String.eqb_eq in E. congruence.
  - destruct (String.eqb k0 k) eqn:E; simpl.
    + apply String.eqb_eq in E. subst k0.
      destruct (String.eqb k k') eqn:E'; auto.
      apply String.eqb_eq in E'. congruence.
    + now rewrite IH.
Qed.

Lemma get_set_same (o : JS.Object) (k : string) (v : JS.Value) :
  JS.get (JS.set o k v) k = v.
Proof. unfold JS.get. now rewrite lookup_set_same. Qed.

Lemma get_set_other (o : JS.Object) (k k' : string) (v : JS.Value) :
  k' <> k -> JS.get (JS.set o k v) k' = JS.get o k'.
Proof. intros H. unfold JS.get. now rewrite lookup_set_other. Qed.

(** ** The resolver *)

Section ResolverFacts.
Import Resolver.

Lemma mapCreatedComponentType_card : mapCreatedComponentType "card" = "scheme".
Proof. reflexivity. Qed.

Lemma mapCreatedComponentType_other (typeName : string) :
  typeName <> "card" -> mapCreatedComponentType typeName = typeName.
Proof.
  intros H. unfold mapCreatedComponentType.
  destruct (String.eqb typeName "card") eqn:E; auto.
  apply String.eqb_eq in E. contradiction.
Qed.

Lemma find_found (catalog : PaymentMethodsResponse) (typeName : string)
      (pm : PaymentMethod) :
  find catalog typeName = Some pm ->
  In pm (paymentMethods catalog) /\ type pm = mapCreatedComponentType typeName.
Proof.
  unfold find. intros H. apply find_some in H. destruct H as [Hin Heq].
  apply String.eqb_eq in Heq. auto.
Qed.

Lemma find_present (catalog : PaymentMethodsResponse) (typeName : string) :
  (exists pm, In pm (paymentMethods catalog)
              /\ type pm = mapCreatedComponentType typeName) ->
  exists pm, find catalog typeName = Some pm.
Proof.
  intros [pm [Hin Heq]]. unfold find.
  destruct (List.find _ (paymentMethods catalog)) as [pm' |] eqn:E.
  - now exists pm'.
  - exfalso. apply (find_none _ _ E) in Hin.
    rewrite Heq, String.eqb_refl in Hin. discriminate.
Qed.

Lemma find_absent (catalog : PaymentMethodsResponse) (typeName : string) :
  (forall pm, In pm (paymentMethods catalog) ->
              type pm <> mapCreatedComponentType typeName) ->
  find catalog typeName = None.
Proof.
  intros H. unfold find.
  destruct (List.find _ (paymentMethods catalog)) as [pm |] eqn:E; auto.
  apply find_some in E. destruct E as [Hin Heq].
  apply String.eqb_eq in Heq. now apply H in Hin.
Qed.

(** C4. A request for ["card"] resolves to a record of type ["scheme"]
    whenever the catalog has one, never to a record whose type is the
    literal ["card"]; any other name resolves to a record of exactly that
    type when the catalog has one; and with no such record the result is
    absence.  [find] is a total function: there is no failure besides
    absence. *)
Theorem find_resolves_alias_and_exact (catalog : PaymentMethodsResponse) :
  (forall pm, find catalog "card" = Some pm ->
     In pm (paymentMethods catalog) /\ type pm = "scheme" /\ type pm <> "card")
  /\ ((exists pm, In pm (paymentMethods catalog) /\ type pm = "scheme") ->
      exists pm, find catalog "card" = Some pm /\ type pm = "scheme")
  /\ ((forall pm, In pm (paymentMethods catalog) -> type pm <> "scheme") ->
      find catalog "card" = None)
  /\ (forall typeName, typeName <> "card" ->
      (forall pm, find catalog typeName = Some pm ->
         In pm (paymentMethods catalog) /\ type pm = typeName)
      /\ ((exists pm, In pm (paymentMethods catalog) /\ type pm = typeName) ->
          exists pm, find catalog typeName = Some pm /\ type pm = typeName)
      /\ ((forall pm, In pm (paymentMethods catalog) -> type pm <> typeName) ->
          find catalog typeName = None)).
Proof.
  repeat split.
  - now apply find_found in H.
  - apply find_found in H. now rewrite mapCreatedComponentType_card in H.
  - apply find_found in H. destruct H as [_ H].
    rewrite mapCreatedComponentType_card in H. rewrite H. discriminate.
  - intros Hex. destruct (find_present catalog "card" Hex) as [pm Hpm].
    exists pm. split; auto. now apply find_found in Hpm.
  - intros Hno. now apply find_absent.
  - now apply find_found in H0.
  - apply find_found in H0. destruct H0 as [_ H0].
    now rewrite (mapCreatedComponentType_other _ H) in H0.
  - intros Hex. rewrite <- (mapCreatedComponentType_other _ H) in Hex.
    destruct (find_present catalog typeName Hex) as [pm Hpm].
    exists pm. split; auto. apply find_found in Hpm. destruct Hpm as [_ Hpm].
    now rewrite (mapCreatedComponentType_other _ H) in Hpm.
  - intros Hno. apply find_absent.
    now rewrite (mapCreatedComponentType_other _ H).
Qed.

End ResolverFacts.

(** The resolver on the two catalogs of the specification's scenarios. *)
Lemma find_resolves_alias_and_exact_witness :
  (exists pm, Resolver.find Sample.catalogB "card" = Some pm
              /\ Resolver.type pm = "scheme")
  /\ Resolver.find Sample.catalogB "unknown_type" = None
  /\ (exists pm, Resolver.find Sample.catalogB "ideal" = Some pm
                 /\ Resolver.type pm = "ideal").
Proof.
  destruct (find_resolves_alias_and_exact Sample.catalogB) as (_ & Hcard & _ & Hother).
  split; [| split].
  - apply Hcard. exists Sample.scheme. simpl. auto.
  - assert (Hne : "unknown_type" <> "card") by discriminate.
    destruct (Hother "unknown_type" Hne) as (_ & _ & Hnone).
    apply Hnone. intros pm [<- | [<- | []]]; discriminate.
  - assert (Hne : "ideal" <> "card") by discriminate.
    destruct (Hother "ideal" Hne) as (_ & Hsome & _).
    apply Hsome. exists Sample.ideal. simpl. auto.
Defined.

Example find_card_skips_literal_card :
  Resolver.find {| Resolver.paymentMethods := [Sample.literalCard] |} "card" = None.
Proof. reflexivity. Qed.

Example find_card_takes_first_scheme :
  Resolver.find {| Resolver.paymentMethods := [Sample.literalCard; Sample.scheme] |} "card"
  = Some Sample.scheme.
Proof. reflexivity. Qed.

(** ** The instant-payment bottom sheet *)

Section FragmentFacts.
Import InstantFragment.

Lemma onViewState_without_view (viewState : InstantViewState) :
  onViewState viewState {| _binding := None |} = None.
Proof. destruct viewState; reflexivity. Qed.

(** C9. While the fragment has its view, handling a view state leaves exactly
    one of the error text, the progress indicator and the component
    container visible, and it is the one the state names; an error state
    also puts its message into the error text. *)
Theorem onViewState_exactly_one_visible
    (viewState : InstantViewState) (fragment : Fragment)
    (b : FragmentInstantBinding) :
  _binding fragment = Some b ->
  exists b',
    option_map _binding (onViewState viewState fragment) = Some (Some b')
    /\ visibleCount b' = 1
    /\ shows viewState b'.
Proof.
  intros Hb. destruct fragment as [ob]. simpl in Hb. subst ob.
  destruct viewState as [| errorMessage |]; simpl;
    eexists; (split; [reflexivity | split; simpl; auto]).
Qed.

Lemma onViewState_exactly_one_visible_witness :
  let shown := {| isVisible := true; text := "" |} in
  let all := {| errorView := shown; progressIndicator := shown;
                componentContainer := shown |} in
  exists b',
    option_map _binding (onViewState (Error "declined") {| _binding := Some all |})
    = Some (Some b')
    /\ visibleCount b' = 1
    /\ shows (Error "declined") b'.
Proof.
  intros shown all.
  apply (onViewState_exactly_one_visible (Error "declined") {| _binding := Some all |} all).
  reflexivity.
Defined.

End FragmentFacts.

(** ** The provider: computing with the monad *)

Section ListFacts.
Context {A : Type}.

Lemma filter_keeps_all (f : A -> bool) (l : list A) :
  (forall x, In x l -> f x = true) -> filter f l = l.
Proof.
  induction l as [| a l IH]; simpl; intros H; auto.
  rewrite (H a) by auto. f_equal. apply IH. auto.
Qed.

Lemma filter_drops_all (f : A -> bool) (l : list A) :
  (forall x, In x l -> f x = false) -> filter f l = [].
Proof.
  induction l as [| a l IH]; simpl; intros H; auto.
  rewrite (H a) by auto. apply IH. auto.
Qed.

Lemma filter_twice (f g : A -> bool) (l : list A) :
  filter f (filter g l) = filter (fun x => g x && f x) l.
Proof.
  induction l as [| a l IH]; simpl; auto.
  destruct (g a); simpl; [destruct (f a) |]; now rewrite IH.
Qed.

End ListFacts.

Section CheckoutFacts.
Import Resolver Checkout Observe.

Lemma released_nil (st : State) : released [] st = st.
Proof.
  destruct st as [reg k subs sess]. unfold released. simpl.
  f_equal. now apply filter_keeps_all.
Qed.

Lemma released_cons (s : EmitterSubscription) (subs : list EmitterSubscription)
      (st : State) :
  released subs (final (remove s st)) = released (s :: subs) st.
Proof.
  unfold released, final, remove. simpl. f_equal.
  rewrite filter_twice. apply filter_ext. intros r.
  now rewrite negb_orb.
Qed.

(** [forEach] of [remove]: every subscription gets its [remove] call, in
    order, and the emitter drops what they registered. *)
Lemma forEach_remove (subs : list EmitterSubscription) (st : State) :
  forEach subs remove st
  = (Normal tt, released subs st, map SubscriptionRemove subs).
Proof.
  revert st. induction subs as [| s subs IH]; intros st.
  - simpl. unfold ret. now rewrite released_nil.
  - cbn [forEach]. unfold bind at 1.
    change (remove s st)
      with (Normal tt, final (remove s st), [SubscriptionRemove s]).
    cbv iota beta. rewrite IH, released_cons. reflexivity.
Qed.

Lemma removeEventListeners_eq (st : State) :
  removeEventListeners st
  = (Normal tt, released (subscriptions st) st,
     map SubscriptionRemove (subscriptions st)).
Proof. unfold removeEventListeners. apply forEach_remove. Qed.

Lemma released_owned (st : State) :
  owned st = true -> registry (released (subscriptions st) st) = [].
Proof.
  unfold owned, released. simpl. intros H.
  apply filter_drops_all. intros r Hin.
  rewrite forallb_forall in H. now rewrite (H r Hin).
Qed.

Lemma released_twice (subs : list EmitterSubscription) (st : State) :
  released subs (released subs st) = released subs st.
Proof.
  unfold released. simpl. f_equal.
  rewrite filter_twice. apply filter_ext. intros r.
  now destruct (heldBy subs r).
Qed.

Lemma startEventListeners_eq (props : AdyenCheckoutProps)
      (configuration : Configuration) (nativeComponent : AdyenActionComponent)
      (st : State) :
  startEventListeners props configuration nativeComponent st
  = (Normal tt, attachedState props configuration nativeComponent st, []).
Proof.
  unfold startEventListeners, attachedState, attached, bind, addListener,
    setSubscriptions, pushSubscription, ret.
  destruct (includes (events nativeComponent) Event.onAdditionalDetails);
    destruct (includes (events nativeComponent) Event.onComplete);
    simpl; rewrite <- ?app_assoc; reflexivity.
Qed.

Lemma held_by_own (regs : list Registration) :
  forallb (heldBy (map subscription regs)) regs = true.
Proof.
  apply forallb_forall. intros r Hin. unfold heldBy.
  apply existsb_exists. exists (subscription r). split.
  - now apply in_map.
  - apply Nat.eqb_refl.
Qed.

Lemma attachedState_owned (props : AdyenCheckoutProps)
      (configuration : Configuration) (nativeComponent : AdyenActionComponent)
      (st : State) :
  registry st = [] ->
  owned (attachedState props configuration nativeComponent st) = true.
Proof.
  intros H. unfold owned, attachedState. cbn [registry subscriptions].
  rewrite H. apply held_by_own.
Qed.

End CheckoutFacts.

Section StartFacts.
Import Resolver Checkout Observe.

Variable checkPaymentMethodsResponse :
  option PaymentMethodsResponse -> Completion PaymentMethodsResponse.
Variable getNativeComponent :
  string -> PaymentMethodsResponse ->
  Completion (AdyenActionComponent * option PaymentMethod).
Variable checkConfiguration : Configuration -> Completion unit.

Local Abbreviation start' :=
  (start checkPaymentMethodsResponse getNativeComponent checkConfiguration).
Local Abbreviation after' :=
  (after checkPaymentMethodsResponse getNativeComponent checkConfiguration).
Local Abbreviation operate' :=
  (operate checkPaymentMethodsResponse getNativeComponent checkConfiguration).

(** [start], step by step: the release of the previous subscriptions, the
    three checks in the order of the source, the attachment, the open. *)
Lemma start_eq (props : AdyenCheckoutProps) (typeName : string) (st : State) :
  start' props typeName st =
  let st0 := released (subscriptions st) st in
  let log0 := map SubscriptionRemove (subscriptions st) in
  match checkPaymentMethodsResponse (effectivePaymentMethods props st) with
  | Throw e => (Throw e, st0, log0)
  | Normal current =>
      match getNativeComponent typeName current with
      | Throw e => (Throw e, st0, log0)
      | Normal resolved =>
          match checkConfiguration (config props) with
          | Throw e => (Throw e, st0, log0)
          | Normal _ =>
              (Normal tt,
               attachedState props (config props) (fst resolved) st0,
               log0 ++
               [match snd resolved with
                | Some pm =>
                    NativeOpen (fst resolved) {| paymentMethods := [pm] |}
                               (singlePaymentConfig (config props))
                | None => NativeOpen (fst resolved) current (config props)
                end])
          end
      end
  end.
Proof.
  unfold start. unfold bind at 1. rewrite removeEventListeners_eq.
  cbv zeta. unfold bind at 1, lift at 1.
  change (effectivePaymentMethods props (released (subscriptions st) st))
    with (effectivePaymentMethods props st).
  destruct (checkPaymentMethodsResponse (effectivePaymentMethods props st))
    as [current | e]; [| simpl; now rewrite ?app_nil_r].
  unfold bind at 1, lift at 1.
  destruct (getNativeComponent typeName current) as [resolved | e];
    [| simpl; now rewrite ?app_nil_r].
  unfold bind at 1, lift at 1.
  destruct (checkConfiguration (config props)) as [[] | e];
    [| simpl; now rewrite ?app_nil_r].
  unfold bind at 1. rewrite startEventListeners_eq.
  destruct (snd resolved); unfold perform; reflexivity.
Qed.

(** A listener leaves the provider's state alone: all it does is call out. *)
Lemma runListener_eq (l : Listener) (ev : NativeEvent) (st : State) :
  runListener l ev st = (Normal tt, st, reaction l ev).
Proof.
  unfold reaction.
  destruct l as [configuration nc cb | nc cb | nc cb | nc cb];
    destruct ev as [response | error | data | data]; try reflexivity;
    unfold runListener, submitPayment, optionalCall, bind, perform, ret.
  - now destruct cb.
  - now destruct (JS.strict_eq_string (JS.get error "errorCode") "canceledByShopper").
  - now destruct cb.
  - now destruct cb.
Qed.

Lemma forEach_calls_out {A : Type} (xs : list A) (f : A -> M unit)
      (g : A -> list Effect) :
  (forall x st, f x st = (Normal tt, st, g x)) ->
  forall st, forEach xs f st = (Normal tt, st, flat_map g xs).
Proof.
  intros Hf st. induction xs as [| x xs IH]; [reflexivity |].
  cbn [forEach flat_map]. unfold bind. now rewrite Hf, IH.
Qed.

(** A native event runs the listeners registered under its name, in order,
    and changes nothing in the provider. *)
Lemma emit_eq (ev : NativeEvent) (st : State) :
  emit ev st
  = (Normal tt, st,
     flat_map (fun r => reaction (listener r) ev) (listenersFor (eventName ev) st)).
Proof.
  unfold emit. apply forEach_calls_out. intros r st'. apply runListener_eq.
Qed.

(** *** The invariant: nothing is live outside the current subscription set *)

Lemma owned_empty_registry (st : State) : registry st = [] -> owned st = true.
Proof. unfold owned. now intros ->. Qed.

Lemma owned_initialState : owned initialState = true.
Proof. reflexivity. Qed.

Lemma owned_start (props : AdyenCheckoutProps) (typeName : string) (st : State) :
  owned st = true -> owned (final (start' props typeName st)) = true.
Proof.
  intros H. rewrite start_eq. cbv zeta.
  pose proof (released_owned st H) as Hempty.
  destruct (checkPaymentMethodsResponse _) as [current | e];
    [| now apply owned_empty_registry].
  destruct (getNativeComponent typeName current) as [resolved | e];
    [| now apply owned_empty_registry].
  destruct (checkConfiguration (config props)) as [[] | e];
    [| now apply owned_empty_registry].
  now apply attachedState_owned.
Qed.

Lemma owned_operate (op : Operation) (st : State) :
  owned st = true -> owned (final (operate' op st)) = true.
Proof.
  intros H. destruct op as [props typeName | | ev | props backend]; cbn [operate].
  - now apply owned_start.
  - rewrite removeEventListeners_eq. apply owned_empty_registry.
    now apply released_owned.
  - now rewrite emit_eq.
  - destruct backend; exact H.
Qed.

(** Every state a mounted provider can reach satisfies the invariant. *)
Lemma owned_after (ops : list Operation) (st : State) :
  owned st = true -> owned (after' ops st) = true.
Proof.
  revert st. induction ops as [| op ops IH]; intros st H; [exact H |].
  cbn [after]. apply IH. now apply owned_operate.
Qed.

(** *** What is listening after an attachment *)

Lemma listenersFor_onSubmit_attached (props : AdyenCheckoutProps)
      (configuration : Configuration) (nc : AdyenActionComponent) (st : State) :
  registry st = [] ->
  listenersFor Event.onSubmit (attachedState props configuration nc st)
  = [{| subscription := {| key := nextKey st; eventType := Event.onSubmit |};
        listener := SubmitListener configuration nc (onSubmit props) |}].
Proof.
  intros H. unfold listenersFor, attachedState, attached.
  cbn [registry]. rewrite H.
  destruct (includes (events nc) Event.onAdditionalDetails);
    destruct (includes (events nc) Event.onComplete); reflexivity.
Qed.

Lemma listenersFor_onError_attached (props : AdyenCheckoutProps)
      (configuration : Configuration) (nc : AdyenActionComponent) (st : State) :
  registry st = [] ->
  listenersFor Event.onError (attachedState props configuration nc st)
  = [{| subscription := {| key := S (nextKey st); eventType := Event.onError |};
        listener := ErrorListener nc (onError props) |}].
Proof.
  intros H. unfold listenersFor, attachedState, attached.
  cbn [registry]. rewrite H.
  destruct (includes (events nc) Event.onAdditionalDetails);
    destruct (includes (events nc) Event.onComplete); reflexivity.
Qed.

Lemma attachedState_current_set (props : AdyenCheckoutProps)
      (configuration : Configuration) (nc : AdyenActionComponent) (st : State) :
  registry st = [] ->
  map subscription (registry (attachedState props configuration nc st))
  = subscriptions (attachedState props configuration nc st).
Proof. intros H. unfold attachedState. cbn [registry subscriptions]. now rewrite H. Qed.

Lemma removes_are_not_opens (subs : list EmitterSubscription) :
  filter isOpen (map SubscriptionRemove subs) = [].
Proof. induction subs; simpl; auto. Qed.

Lemma removes_are_not_host_errors (subs : list EmitterSubscription) :
  filter isHostError (map SubscriptionRemove subs) = [].
Proof. induction subs; simpl; auto. Qed.

(** The state a completed [start] leaves, and the effects it performed. *)
Lemma start_completes (props : AdyenCheckoutProps) (typeName : string)
      (st : State) (catalog : PaymentMethodsResponse)
      (nc : AdyenActionComponent) (found : option PaymentMethod) :
  checkPaymentMethodsResponse (effectivePaymentMethods props st) = Normal catalog ->
  getNativeComponent typeName catalog = Normal (nc, found) ->
  checkConfiguration (config props) = Normal tt ->
  start' props typeName st
  = (Normal tt,
     attachedState props (config props) nc (released (subscriptions st) st),
     map SubscriptionRemove (subscriptions st) ++
     [match found with
      | Some pm => NativeOpen nc {| paymentMethods := [pm] |}
                              (singlePaymentConfig (config props))
      | None => NativeOpen nc catalog (config props)
      end]).
Proof. intros H1 H2 H3. rewrite start_eq. cbv zeta. now rewrite H1, H2, H3. Qed.

(** Whatever the imported checks do, [start] itself never calls the host's
    [onError]: an exception of theirs leaves [start] as it came. *)
Lemma start_never_calls_onError (props : AdyenCheckoutProps)
      (typeName : string) (st : State) :
  filter isHostError (effects (start' props typeName st)) = [].
Proof.
  rewrite start_eq. cbv zeta.
  destruct (checkPaymentMethodsResponse _) as [current | e];
    [| apply removes_are_not_host_errors].
  destruct (getNativeComponent typeName current) as [resolved | e];
    [| apply removes_are_not_host_errors].
  destruct (checkConfiguration (config props)) as [[] | e];
    [| apply removes_are_not_host_errors].
  unfold effects. cbn [snd].
  rewrite filter_app, removes_are_not_host_errors.
  now destruct (snd resolved).
Qed.

(** *** The open call *)

(** C3. When the catalog and configuration checks pass, [start] calls the
    native [open] exactly once.  If the resolution returned a payment-method
    record, the call carries a catalog holding that record alone and a
    configuration whose [dropin] has [skipListWhenSinglePaymentMethod] set to
    [true]; if it returned none, the call carries the effective catalog and
    the configuration as supplied. *)
Theorem start_opens_single_method_or_full_list
    (props : AdyenCheckoutProps) (typeName : string) (st : State)
    (catalog : PaymentMethodsResponse) (nc : AdyenActionComponent)
    (found : option PaymentMethod) :
  effectivePaymentMethods props st = Some catalog ->
  checkPaymentMethodsResponse (Some catalog) = Normal catalog ->
  getNativeComponent typeName catalog = Normal (nc, found) ->
  checkConfiguration (config props) = Normal tt ->
  let r := start' props typeName st in
  completion r = Normal tt
  /\ match found with
     | Some pm =>
         exists configuration dropin,
           filter isOpen (effects r)
           = [NativeOpen nc {| paymentMethods := [pm] |} configuration]
           /\ JS.get configuration "dropin" = JS.Obj dropin
           /\ JS.get dropin "skipListWhenSinglePaymentMethod" = JS.Bool true
     | None =>
         filter isOpen (effects r) = [NativeOpen nc catalog (config props)]
     end.
Proof.
  intros Hcat Hcheck Hres Hcfg r. rewrite <- Hcat in Hcheck.
  subst r. rewrite (start_completes _ _ _ _ _ _ Hcheck Hres Hcfg).
  unfold completion, effects. cbn [fst snd]. split; [reflexivity |].
  rewrite filter_app, removes_are_not_opens.
  destruct found as [pm |]; [| reflexivity].
  exists (singlePaymentConfig (config props)),
         [("skipListWhenSinglePaymentMethod", JS.Bool true)].
  split; [reflexivity |]. split; [| reflexivity].
  unfold singlePaymentConfig, JS.spread_with. apply get_set_same.
Qed.

(** C10. In the single-method branch the configuration handed to [open]
    agrees with the supplied one on every top-level field except [dropin],
    and its [dropin] is the object [{skipListWhenSinglePaymentMethod: true}]
    and nothing more: whatever the host had put under [dropin] is gone. *)
Theorem single_method_configuration_replaces_dropin
    (props : AdyenCheckoutProps) (typeName : string) (st : State)
    (catalog : PaymentMethodsResponse) (nc : AdyenActionComponent)
    (pm : PaymentMethod) :
  checkPaymentMethodsResponse (effectivePaymentMethods props st) = Normal catalog ->
  getNativeComponent typeName catalog = Normal (nc, Some pm) ->
  checkConfiguration (config props) = Normal tt ->
  exists configuration,
    filter isOpen (effects (start' props typeName st))
    = [NativeOpen nc {| paymentMethods := [pm] |} configuration]
    /\ (forall k, k <> "dropin" ->
          JS.lookup configuration k = JS.lookup (config props) k)
    /\ JS.lookup configuration "dropin"
       = Some (JS.Obj [("skipListWhenSinglePaymentMethod", JS.Bool true)])
    /\ (forall k dropin,
          JS.get configuration "dropin" = JS.Obj dropin ->
          k <> "skipListWhenSinglePaymentMethod" ->
          JS.lookup dropin k = None).
Proof.
  intros Hcheck Hres Hcfg.
  rewrite (start_completes _ _ _ _ _ _ Hcheck Hres Hcfg).
  unfold effects. cbn [snd].
  rewrite filter_app, removes_are_not_opens.
  exists (singlePaymentConfig (config props)).
  unfold singlePaymentConfig, JS.spread_with.
  split; [reflexivity |]. split; [| split].
  - intros k Hk. now apply lookup_set_other.
  - apply lookup_set_same.
  - intros k dropin Hd Hk. rewrite get_set_same in Hd.
    injection Hd as <-. cbn [JS.lookup].
    destruct (String.eqb "skipListWhenSinglePaymentMethod" k) eqn:E; auto.
    apply String.eqb_eq in E. congruence.
Qed.

(** *** Successive starts *)

(** C2. Whatever happened to the provider before, after two successive calls
    of [start] the second call began by calling [remove] on every
    subscription the first had left, which emptied the emitter; every
    listener still registered at the end belongs to the one set that
    [subscriptions.current] refers to; a submit event reaches at most one
    listener and the host's [onSubmit] is called at most once for it; and
    when the second call ran to completion the live subscriptions are
    exactly that set and a submit event reaches exactly one listener. *)
Theorem successive_starts_one_subscription_set
    (ops : list Operation) (props1 props2 : AdyenCheckoutProps)
    (typeName1 typeName2 : string) :
  let st := after' ops initialState in
  let r1 := start' props1 typeName1 st in
  let r2 := start' props2 typeName2 (final r1) in
  (exists rest,
      effects r2 = map SubscriptionRemove (subscriptions (final r1)) ++ rest
      /\ filter isRemove rest = [])
  /\ registry (final (removeEventListeners (final r1))) = []
  /\ owned (final r2) = true
  /\ length (listenersFor Event.onSubmit (final r2)) <= 1
  /\ (forall response,
        count isHostSubmit (effects (emit (SubmitEvent response) (final r2))) <= 1)
  /\ (completion r2 = Normal tt ->
      map subscription (registry (final r2)) = subscriptions (final r2)
      /\ subscriptions (final r2) <> []
      /\ length (listenersFor Event.onSubmit (final r2)) = 1).
Proof.
  intros st r1 r2.
  assert (Hst : owned st = true)
    by (apply owned_after, owned_initialState).
  assert (H1 : owned (final r1) = true) by now apply owned_start.
  pose proof (released_owned _ H1) as Hempty.
  assert (Hidle : forall st0 : State,
             registry st0 = [] -> length (listenersFor Event.onSubmit st0) <= 1).
  { intros st0 E. unfold listenersFor. rewrite E. simpl. lia. }
  assert (Hquiet : forall (st0 : State) response,
             registry st0 = [] ->
             count isHostSubmit (effects (emit (SubmitEvent response) st0)) <= 1).
  { intros st0 response E. rewrite emit_eq. unfold listenersFor. rewrite E.
    unfold count, effects. simpl. lia. }
  split; [| split; [| split; [| split; [| split]]]].
  - subst r2. rewrite start_eq. cbv zeta.
    destruct (checkPaymentMethodsResponse _) as [current | e];
      [| exists []; now rewrite app_nil_r].
    destruct (getNativeComponent typeName2 current) as [resolved | e];
      [| exists []; now rewrite app_nil_r].
    destruct (checkConfiguration (config props2)) as [[] | e];
      [| exists []; now rewrite app_nil_r].
    eexists. split; [reflexivity |]. now destruct (snd resolved).
  - now rewrite removeEventListeners_eq.
  - now apply owned_start.
  - subst r2. rewrite start_eq. cbv zeta.
    destruct (checkPaymentMethodsResponse _) as [current | e];
      [| now apply Hidle].
    destruct (getNativeComponent typeName2 current) as [resolved | e];
      [| now apply Hidle].
    destruct (checkConfiguration (config props2)) as [[] | e];
      [| now apply Hidle].
    unfold final. cbn [fst snd].
    rewrite listenersFor_onSubmit_attached by exact Hempty. simpl. lia.
  - intros response. subst r2. rewrite start_eq. cbv zeta.
    destruct (checkPaymentMethodsResponse _) as [current | e];
      [| now apply Hquiet].
    destruct (getNativeComponent typeName2 current) as [resolved | e];
      [| now apply Hquiet].
    destruct (checkConfiguration (config props2)) as [[] | e];
      [| now apply Hquiet].
    unfold final. cbn [fst snd]. rewrite emit_eq. unfold effects.
    cbn [snd eventName].
    rewrite listenersFor_onSubmit_attached by exact Hempty.
    cbn [flat_map listener]. rewrite app_nil_r.
    unfold reaction, runListener, submitPayment, optionalCall, bind, perform,
      ret, effects, count.
    destruct (onSubmit props2); simpl; lia.
  - subst r2. rewrite start_eq. cbv zeta.
    destruct (checkPaymentMethodsResponse _) as [current | e];
      [| discriminate].
    destruct (getNativeComponent typeName2 current) as [resolved | e];
      [| discriminate].
    destruct (checkConfiguration (config props2)) as [[] | e];
      [| discriminate].
    intros _. unfold final. cbn [fst snd]. split; [| split].
    + now apply attachedState_current_set.
    + discriminate.
    + now rewrite listenersFor_onSubmit_attached by exact Hempty.
Qed.

(** *** Events after a start *)

(** C6. After a [start] that ran to completion, a native error event whose
    [errorCode] is ["canceledByShopper"] makes the provider call
    [hide(false)] on the native module and then the host's [onError]; any
    other error event makes it call [onError] alone.  In both cases
    [onError] receives the error and the native module. *)
Theorem error_event_hides_canceled_then_reports
    (ops : list Operation) (props : AdyenCheckoutProps) (typeName : string)
    (catalog : PaymentMethodsResponse) (nc : AdyenActionComponent)
    (found : option PaymentMethod) (error : JS.Object) :
  let st := after' ops initialState in
  checkPaymentMethodsResponse (effectivePaymentMethods props st) = Normal catalog ->
  getNativeComponent typeName catalog = Normal (nc, found) ->
  checkConfiguration (config props) = Normal tt ->
  let listening := final (start' props typeName st) in
  effects (emit (ErrorEvent error) listening)
  = (if JS.strict_eq_string (JS.get error "errorCode") "canceledByShopper"
     then [NativeHide nc false]
     else [])
    ++ [HostOnError (onError props) error (Native nc)].
Proof.
  intros st Hcheck Hres Hcfg listening. subst listening.
  assert (Hst : owned st = true)
    by (apply owned_after, owned_initialState).
  rewrite (start_completes _ _ _ _ _ _ Hcheck Hres Hcfg).
  unfold final. cbn [fst snd]. rewrite emit_eq. unfold effects. cbn [snd eventName].
  rewrite listenersFor_onError_attached by now apply released_owned.
  cbn [flat_map listener]. rewrite app_nil_r.
  unfold reaction, runListener, bind, perform, ret, effects.
  now destruct (JS.strict_eq_string (JS.get error "errorCode") "canceledByShopper").
Qed.

(** C8. After a [start] that ran to completion, a native submit event makes
    the provider call [hide(false)] on the native module first and then, if
    the host gave an [onSubmit], that callback with the payment data, the
    native module and the event's extra data.  The payload's [returnUrl] is
    the event's own when that is neither absent nor null, and the
    configuration's otherwise; every other property is the event's. *)
Theorem submit_event_hides_then_forwards
    (ops : list Operation) (props : AdyenCheckoutProps) (typeName : string)
    (catalog : PaymentMethodsResponse) (nc : AdyenActionComponent)
    (found : option PaymentMethod) (response : SubmitResponse) :
  let st := after' ops initialState in
  checkPaymentMethodsResponse (effectivePaymentMethods props st) = Normal catalog ->
  getNativeComponent typeName catalog = Normal (nc, found) ->
  checkConfiguration (config props) = Normal tt ->
  let listening := final (start' props typeName st) in
  match onSubmit props with
  | Some callback =>
      exists payload,
        effects (emit (SubmitEvent response) listening)
        = [NativeHide nc false;
           HostOnSubmit callback payload nc (extra response)]
        /\ JS.get payload "returnUrl"
           = (if JS.nullish (JS.get (paymentData response) "returnUrl")
              then JS.get (config props) "returnUrl"
              else JS.get (paymentData response) "returnUrl")
        /\ (forall k, k <> "returnUrl" ->
              JS.lookup payload k = JS.lookup (paymentData response) k)
  | None =>
      effects (emit (SubmitEvent response) listening) = [NativeHide nc false]
  end.
Proof.
  intros st Hcheck Hres Hcfg listening. subst listening.
  assert (Hst : owned st = true)
    by (apply owned_after, owned_initialState).
  rewrite (start_completes _ _ _ _ _ _ Hcheck Hres Hcfg).
  unfold final. cbn [fst snd]. rewrite emit_eq. unfold effects. cbn [snd eventName].
  rewrite listenersFor_onSubmit_attached by now apply released_owned.
  cbn [flat_map listener]. rewrite app_nil_r.
  unfold reaction, runListener, submitPayment, optionalCall, bind, perform,
    ret, effects.
  destruct (onSubmit props) as [callback |]; [| reflexivity].
  eexists. split; [reflexivity |]. unfold JS.spread_with. split.
  - now rewrite get_set_same.
  - intros k Hk. now apply lookup_set_other.
Qed.

End StartFacts.

(** ** The configuration gate *)

Section ConfigurationGate.
Import Resolver Checkout Observe.

Variable checkPaymentMethodsResponse :
  option PaymentMethodsResponse -> Completion PaymentMethodsResponse.
Variable getNativeComponent :
  string -> PaymentMethodsResponse ->
  Completion (AdyenActionComponent * option PaymentMethod).

Lemma checkConfiguration_missing (config : Configuration) (field : string) :
  In field Imported.mandatoryFields ->
  Imported.missing config field = true ->
  exists f,
    In f Imported.mandatoryFields
    /\ Imported.missing config f = true
    /\ Imported.checkConfiguration config = Throw (ConfigurationError f).
Proof.
  intros Hin Hmiss. unfold Imported.checkConfiguration.
  destruct (List.find (Imported.missing config) Imported.mandatoryFields)
    as [f |] eqn:E.
  - apply find_some in E. destruct E as [Hf Hm]. now exists f.
  - apply (find_none _ _ E) in Hin. congruence.
Qed.

(** C1, as the code has it.  With a configuration that lacks a mandatory
    field, [start] ends by throwing to its caller.  All it did before is
    release the previous subscriptions: the native [open] is not called, no
    listener is attached, and the host's [onError] is not called either.
    When the catalog check and the component resolution, which come first,
    pass, the exception thrown is the configuration error naming a missing
    mandatory field. *)
Theorem start_missing_field_throws_before_open
    (props : AdyenCheckoutProps) (typeName : string) (st : State)
    (field : string) :
  In field Imported.mandatoryFields ->
  Imported.missing (config props) field = true ->
  let r := start checkPaymentMethodsResponse getNativeComponent
                 Imported.checkConfiguration props typeName st in
  (exists e, completion r = Throw e)
  /\ effects r = map SubscriptionRemove (subscriptions st)
  /\ count isOpen (effects r) = 0
  /\ count isHostError (effects r) = 0
  /\ final r = released (subscriptions st) st
  /\ (forall catalog resolved,
        checkPaymentMethodsResponse (effectivePaymentMethods props st)
        = Normal catalog ->
        getNativeComponent typeName catalog = Normal resolved ->
        exists f,
          In f Imported.mandatoryFields
          /\ Imported.missing (config props) f = true
          /\ completion r = Throw (ConfigurationError f)).
Proof.
  intros Hin Hmiss r.
  destruct (checkConfiguration_missing _ _ Hin Hmiss) as (f & Hf & Hm & Hthrow).
  assert (Hshape :
    exists e, r = (Throw e, released (subscriptions st) st,
                   map SubscriptionRemove (subscriptions st))
              /\ (forall catalog resolved,
                    checkPaymentMethodsResponse (effectivePaymentMethods props st)
                    = Normal catalog ->
                    getNativeComponent typeName catalog = Normal resolved ->
                    e = ConfigurationError f)).
  { subst r. rewrite start_eq. cbv zeta.
    destruct (checkPaymentMethodsResponse (effectivePaymentMethods props st))
      as [current | e] eqn:Ecat.
    - destruct (getNativeComponent typeName current) as [resolved | e] eqn:Eres.
      + rewrite Hthrow. exists (ConfigurationError f). split; auto.
      + exists e. split; auto. intros c r0 Hc Hr.
        injection Hc as <-. congruence.
    - exists e. split; auto. discriminate. }
  destruct Hshape as (e & -> & He).
  unfold completion, effects, final, count. cbn [fst snd].
  rewrite removes_are_not_opens, removes_are_not_host_errors.
  repeat split; auto.
  - now exists e.
  - intros catalog resolved Hc Hr. exists f. rewrite (He _ _ Hc Hr). auto.
Qed.

End ConfigurationGate.

(** ** Detaching *)

Section DetachFacts.
Import Resolver Checkout Observe.

(** C5, as the code has it.  Calling [removeEventListeners] twice in a row
    raises nothing and the second call leaves the state as the first left
    it; but [subscriptions.current] is not cleared, so each call calls
    [remove] on every subscription of the set, and the second call does so
    on subscriptions that are released already.  After the first call no
    listener of the set is registered.  With an empty set the call does
    nothing at all. *)
Theorem removeEventListeners_repeats_on_second_call (st : State) :
  let r1 := removeEventListeners st in
  let r2 := removeEventListeners (final r1) in
  completion r1 = Normal tt
  /\ completion r2 = Normal tt
  /\ effects r1 = map SubscriptionRemove (subscriptions st)
  /\ effects r2 = map SubscriptionRemove (subscriptions st)
  /\ subscriptions (final r1) = subscriptions st
  /\ final r2 = final r1
  /\ filter (heldBy (subscriptions st)) (registry (final r1)) = []
  /\ (subscriptions st = [] -> final r1 = st /\ effects r1 = []).
Proof.
  intros r1 r2. subst r2 r1. rewrite !removeEventListeners_eq.
  unfold completion, effects, final. cbn [fst snd].
  change (subscriptions (released (subscriptions st) st)) with (subscriptions st).
  rewrite released_twice.
  repeat split.
  - unfold released. cbn [registry]. rewrite filter_twice.
    apply filter_drops_all. intros r _. now destruct (heldBy (subscriptions st) r).
  - rewrite H. apply released_nil.
  - now rewrite H.
Qed.

Lemma removeEventListeners_repeats_on_second_call_witness :
  let r1 := removeEventListeners initialState in
  subscriptions initialState = []
  /\ final r1 = initialState /\ effects r1 = [].
Proof.
  intros r1. split; [reflexivity |].
  pose proof (removeEventListeners_repeats_on_second_call initialState) as H. cbv zeta in H.
  destruct H as (_ & _ & _ & _ & _ & _ & _ & H). apply H. reflexivity.
Defined.

(** ** Session creation *)

(** C7. When the backend promise rejects with [e], [createSession] has
    called the backend once and calls the host's [onError] once, with an
    error whose [errorCode] is ["sessionError"] and whose [message] is
    [JSON.stringify(e)], and with the session helper, not a native payment
    module, as the component.  The stored session is left as it was and the
    backend is not called again.  Unless [e] is [undefined] the message is a
    string, the JSON text of [e]. *)
Theorem createSession_rejection_reports_once
    (props : AdyenCheckoutProps) (e : JS.Value) (st : State) :
  let r := createSession props (Rejected e) st in
  completion r = Normal tt
  /\ final r = st
  /\ exists error,
       effects r
       = [SessionHelperCreateSession (session props) (config props);
          HostOnError (onError props) error SessionHelper]
       /\ JS.get error "errorCode" = JS.Str "sessionError"
       /\ JS.get error "message" = JS.JSON_stringify e
       /\ count isHostError (effects r) = 1
       /\ count isCreateSession (effects r) = 1
       /\ (e <> JS.Undefined ->
           exists text,
             JS.serialize e = Some text
             /\ JS.get error "message" = JS.Str text).
Proof.
  intros r. subst r. split; [reflexivity |]. split; [reflexivity |].
  eexists. split; [reflexivity |]. repeat (split; [reflexivity |]).
  intros He. change (JS.get _ "message") with (JS.JSON_stringify e).
  unfold JS.JSON_stringify.
  destruct (JS.serialize e) as [text |] eqn:E.
  - now exists text.
  - destruct e as [| | [] | n | s | items | props']; try discriminate E.
    contradiction.
Qed.

(** A rejection that has every kind of value in it: the message the host
    receives is its JSON text, character by character. *)
Lemma createSession_rejection_reports_once_witness :
  Rejection.value <> JS.Undefined
  /\ exists error,
       effects (createSession Sample.sessionProps (Rejected Rejection.value)
                              initialState)
       = [SessionHelperCreateSession (session Sample.sessionProps)
                                     Sample.validConfig;
          HostOnError 2 error SessionHelper]
       /\ JS.get error "errorCode" = JS.Str "sessionError"
       /\ JS.get error "message" = JS.Str Rejection.text.
Proof.
  assert (Hdefined : Rejection.value <> JS.Undefined) by discriminate.
  split; [exact Hdefined |].
  pose proof (createSession_rejection_reports_once Sample.sessionProps
                Rejection.value initialState) as H.
  cbv zeta in H.
  destruct H as (_ & _ & error & Heffects & Hcode & _ & _ & _ & Htext).
  destruct (Htext Hdefined) as (text & Hserial & Hmessage).
  exists error. split; [exact Heffects |]. split; [exact Hcode |].
  rewrite Hmessage. f_equal.
  assert (Hvalue : JS.serialize Rejection.value = Some Rejection.text)
    by (vm_compute; reflexivity).
  congruence.
Defined.

End DetachFacts.

(** ** The properties on the sample provider *)

Section Scenarios.
Import Resolver Checkout Observe.

Local Abbreviation cpmr := Imported.checkPaymentMethodsResponse.
Local Abbreviation gnc := (Imported.getNativeComponent Sample.moduleFor).
Local Abbreviation cc := Imported.checkConfiguration.

(** C1, as stated, fails: a configuration without [environment] makes
    [start] throw the configuration error, and the host's [onError] is not
    called at all. *)
Lemma start_configuration_error_bypasses_onError :
  let r := Sample.start Sample.invalidProps "card" initialState in
  completion r = Throw (ConfigurationError "environment")
  /\ ~ (exists callback error component,
          In (HostOnError callback error component) (effects r)).
Proof.
  split; [reflexivity |].
  intros (callback & error & component & []).
Qed.

Lemma start_missing_field_throws_before_open_witness :
  let r := Sample.start Sample.invalidProps "card" initialState in
  In "environment" Imported.mandatoryFields
  /\ Imported.missing (config Sample.invalidProps) "environment" = true
  /\ (exists e, completion r = Throw e)
  /\ count isOpen (effects r) = 0
  /\ count isHostError (effects r) = 0.
Proof.
  intros r.
  assert (Hin : In "environment" Imported.mandatoryFields) by (simpl; auto).
  assert (Hmiss : Imported.missing (config Sample.invalidProps) "environment" = true)
    by reflexivity.
  pose proof (start_missing_field_throws_before_open cpmr gnc
                Sample.invalidProps "card" initialState "environment" Hin Hmiss) as H.
  cbv zeta in H. destruct H as (Hthrow & _ & Hopen & Herr & _).
  repeat split; assumption.
Defined.

Lemma successive_starts_one_subscription_set_witness :
  let r1 := Sample.start Sample.validProps "card" initialState in
  let r2 := Sample.start Sample.validProps "ideal" (final r1) in
  completion r2 = Normal tt
  /\ map subscription (registry (final r2)) = subscriptions (final r2)
  /\ subscriptions (final r2) <> []
  /\ length (listenersFor Event.onSubmit (final r2)) = 1.
Proof.
  intros r1 r2. split; [reflexivity |].
  pose proof (successive_starts_one_subscription_set cpmr gnc cc []
                Sample.validProps Sample.validProps "card" "ideal") as H.
  cbv zeta in H. destruct H as (_ & _ & _ & _ & _ & H). apply H. reflexivity.
Defined.

(** The catalog check comes before the configuration check: with neither a
    catalog nor an [environment], the exception is the catalog's. *)
Example start_without_catalog_stops_at_catalog_check :
  let props := Sample.propsWith Sample.configWithoutEnvironment None in
  completion (Sample.start props "card" initialState)
  = Throw (PaymentMethodsError "payment methods are not available").
Proof. reflexivity. Qed.

(** A second call that stops at the configuration check has released the
    first call's subscriptions and attached none. *)
Example aborted_second_start_leaves_nothing_live :
  let r1 := Sample.start Sample.validProps "card" initialState in
  let r2 := Sample.start Sample.invalidProps "card" (final r1) in
  length (registry (final r1)) = 4
  /\ completion r2 = Throw (ConfigurationError "environment")
  /\ registry (final r2) = [].
Proof. repeat split. Qed.

(** Scenario A: the catalog holds [scheme] and the request is ["card"]. *)
Lemma start_opens_single_method_or_full_list_witness :
  let r := Sample.start Sample.validProps "card" initialState in
  completion r = Normal tt
  /\ exists configuration dropin,
       filter isOpen (effects r)
       = [NativeOpen Sample.nativeModule
                     {| paymentMethods := [Sample.scheme] |} configuration]
       /\ JS.get configuration "dropin" = JS.Obj dropin
       /\ JS.get dropin "skipListWhenSinglePaymentMethod" = JS.Bool true.
Proof.
  exact (start_opens_single_method_or_full_list cpmr gnc cc
           Sample.validProps "card" initialState Sample.catalogA
           Sample.nativeModule (Some Sample.scheme)
           eq_refl eq_refl eq_refl eq_refl).
Defined.

(** Scenario B: nothing in the catalog matches the request. *)
Example start_unknown_type_opens_full_list :
  let props := Sample.propsWith Sample.validConfig (Some Sample.catalogB) in
  effects (Sample.start props "unknown_type" initialState)
  = [NativeOpen Sample.nativeModule Sample.catalogB Sample.validConfig].
Proof. reflexivity. Qed.

Lemma single_method_configuration_replaces_dropin_witness :
  exists configuration,
    filter isOpen (effects (Sample.start Sample.validProps "card" initialState))
    = [NativeOpen Sample.nativeModule
                  {| paymentMethods := [Sample.scheme] |} configuration]
    /\ JS.lookup configuration "environment" = Some (JS.Str "test")
    /\ JS.lookup configuration "dropin"
       = Some (JS.Obj [("skipListWhenSinglePaymentMethod", JS.Bool true)]).
Proof.
  destruct (single_method_configuration_replaces_dropin cpmr gnc cc
              Sample.validProps "card" initialState Sample.catalogA
              Sample.nativeModule Sample.scheme eq_refl eq_refl eq_refl)
    as (configuration & Hopen & Hframe & Hdropin & _).
  exists configuration. split; [exact Hopen |]. split; [| exact Hdropin].
  rewrite Hframe by discriminate. reflexivity.
Defined.

(** The host's own [dropin] option does not survive the single-method
    branch. *)
Example single_method_drops_host_dropin_options :
  JS.get Sample.validConfig "dropin"
  = JS.Obj [("showPreselectedStoredPaymentMethod", JS.Bool false)]
  /\ JS.get (singlePaymentConfig Sample.validConfig) "dropin"
     = JS.Obj [("skipListWhenSinglePaymentMethod", JS.Bool true)].
Proof. split; reflexivity. Qed.

(** Scenario D: the shopper cancels. *)
Lemma error_event_hides_canceled_then_reports_witness :
  let listening := final (Sample.start Sample.validProps "card" initialState) in
  effects (emit (ErrorEvent Sample.canceled) listening)
  = [NativeHide Sample.nativeModule false;
     HostOnError 2 Sample.canceled (Native Sample.nativeModule)].
Proof.
  exact (error_event_hides_canceled_then_reports cpmr gnc cc []
           Sample.validProps "card" Sample.catalogA Sample.nativeModule
           (Some Sample.scheme) Sample.canceled eq_refl eq_refl eq_refl).
Defined.

Lemma submit_event_hides_then_forwards_witness :
  let listening := final (Sample.start Sample.validProps "card" initialState) in
  exists payload,
    effects (emit (SubmitEvent Sample.submitted) listening)
    = [NativeHide Sample.nativeModule false;
       HostOnSubmit 1 payload Sample.nativeModule JS.Undefined]
    /\ JS.get payload "returnUrl" = JS.Str "myapp://payment".
Proof.
  intros listening.
  destruct (submit_event_hides_then_forwards cpmr gnc cc []
              Sample.validProps "card" Sample.catalogA Sample.nativeModule
              (Some Sample.scheme) Sample.submitted eq_refl eq_refl eq_refl)
    as (payload & Heff & Hurl & _).
  exists payload. split; [exact Heff |]. rewrite Hurl. reflexivity.
Defined.

(** A submit event that brings its own [returnUrl] keeps it. *)
Example submit_event_keeps_own_returnUrl :
  let listening := final (Sample.start Sample.validProps "card" initialState) in
  let response := {| paymentData := [("returnUrl", JS.Str "other://back")];
                     extra := JS.Num 7 |} in
  effects (emit (SubmitEvent response) listening)
  = [NativeHide Sample.nativeModule false;
     HostOnSubmit 1 [("returnUrl", JS.Str "other://back")]
                  Sample.nativeModule (JS.Num 7)].
Proof. reflexivity. Qed.

(** C5, as stated, fails: after a start, two calls of
    [removeEventListeners] call [remove] twice on the submit subscription. *)
Lemma second_detach_calls_remove_again :
  let st := final (Sample.start Sample.validProps "card" initialState) in
  let r1 := removeEventListeners st in
  let r2 := removeEventListeners (final r1) in
  In {| key := 0; eventType := Event.onSubmit |} (subscriptions st)
  /\ completion r1 = Normal tt
  /\ completion r2 = Normal tt
  /\ count (isRemoveOf {| key := 0; eventType := Event.onSubmit |})
           (effects r1 ++ effects r2) = 2.
Proof.
  cbv zeta. split; [left; reflexivity |]. repeat split.
Qed.

(** Scenario C: the backend rejects with [{code: 500}]. *)
Example createSession_rejection_500 :
  effects (createSession Sample.sessionProps
             (Rejected (JS.Obj [("code", JS.Num 500)])) initialState)
  = [SessionHelperCreateSession (session Sample.sessionProps) Sample.validConfig;
     HostOnError 2
       [("message",
         JS.Str (String "{" (String JS.quote
                   ("code" ++ String JS.quote ":500}"))%string));
        ("errorCode", JS.Str "sessionError")]
       SessionHelper].
Proof. reflexivity. Qed.

End Scenarios.

(* ================================================================== *)
(** * Part III: further properties of the code *)
(* ================================================================== *)

(** ** The resolver and the component tables *)

Section ResolverMore.
Import Resolver.

(** X1. The record [find] returns is the first of the catalog, in catalog
    order, whose type is the one looked for: no record before it has that
    type. *)
Theorem find_returns_first_match
    (catalog : PaymentMethodsResponse) (typeName : string) (pm : PaymentMethod) :
  find catalog typeName = Some pm ->
  exists before after,
    paymentMethods catalog = before ++ pm :: after
    /\ forall q, In q before -> type q <> mapCreatedComponentType typeName.
Proof.
  unfold find. destruct catalog as [records]. simpl.
  induction records as [| r records IH]; simpl; [discriminate |].
  destruct (String.eqb (type r) (mapCreatedComponentType typeName)) eqn:E.
  - intros H. injection H as <-. exists [], records. split; [reflexivity |].
    intros q [].
  - intros H. destruct (IH H) as (before & after & Hsplit & Hbefore).
    exists (r :: before), after. split.
    + simpl. now rewrite Hsplit.
    + intros q [<- | Hq].
      * now apply String.eqb_neq.
      * now apply Hbefore.
Qed.

Lemma find_returns_first_match_witness :
  exists before after,
    [Sample.literalCard; Sample.scheme; Sample.ideal; Sample.scheme]
    = before ++ Sample.scheme :: after
    /\ forall q, In q before -> type q <> "scheme".
Proof.
  apply (find_returns_first_match
           {| paymentMethods :=
                [Sample.literalCard; Sample.scheme; Sample.ideal; Sample.scheme] |}
           "card" Sample.scheme).
  reflexivity.
Defined.

(** X2. A request for ["card"] and a request for ["scheme"] resolve to the
    same record in every catalog, and no request name at all resolves to a
    record whose type is the literal ["card"]. *)
Theorem literal_card_records_are_never_found (catalog : PaymentMethodsResponse) :
  find catalog "card" = find catalog "scheme"
  /\ forall typeName pm, find catalog typeName = Some pm -> type pm <> "card".
Proof.
  split; [reflexivity |].
  intros typeName pm H. apply find_found in H. destruct H as [_ H].
  rewrite H. unfold mapCreatedComponentType.
  destruct (String.eqb typeName "card") eqn:E; [discriminate |].
  now apply String.eqb_neq.
Qed.

Lemma literal_card_records_are_never_found_witness :
  type Sample.scheme <> "card".
Proof.
  destruct (literal_card_records_are_never_found
              {| paymentMethods := [Sample.literalCard; Sample.scheme] |})
    as [_ H].
  apply (H "card"). reflexivity.
Defined.

(** X3. A record resolved in a catalog is resolved again, under the same
    request name, in the catalog that holds it alone: the narrowed catalog
    [start] hands to the native module still answers the request. *)
Theorem narrowed_catalog_resolves_alike
    (catalog : PaymentMethodsResponse) (typeName : string) (pm : PaymentMethod) :
  find catalog typeName = Some pm ->
  find {| paymentMethods := [pm] |} typeName = Some pm.
Proof.
  intros H. apply find_found in H. destruct H as [_ H].
  unfold find. simpl. now rewrite H, String.eqb_refl.
Qed.

Lemma narrowed_catalog_resolves_alike_witness :
  find {| paymentMethods := [Sample.scheme] |} "card" = Some Sample.scheme.
Proof.
  apply (narrowed_catalog_resolves_alike Sample.catalogB "card" Sample.scheme).
  reflexivity.
Defined.

Lemma includes_In (names : list string) (name : string) :
  Checkout.includes names name = true <-> In name names.
Proof.
  unfold Checkout.includes. rewrite existsb_exists. split.
  - intros (x & Hin & Heq). apply String.eqb_eq in Heq. now subst x.
  - intros Hin. exists name. split; [exact Hin | apply String.eqb_refl].
Qed.

(** X4. No type name is listed both as a native component and as an
    unsupported payment method; the name a created component is matched
    under is native whenever the component's name is; and it is unsupported
    exactly when the component's name is. *)
Theorem component_tables_are_consistent (name : string) :
  Checkout.includes ComponentMap.NATIVE_COMPONENTS name
  && Checkout.includes ComponentMap.UNSUPPORTED_PAYMENT_METHODS name = false
  /\ (Checkout.includes ComponentMap.NATIVE_COMPONENTS name = true ->
      Checkout.includes ComponentMap.NATIVE_COMPONENTS
        (mapCreatedComponentType name) = true)
  /\ Checkout.includes ComponentMap.UNSUPPORTED_PAYMENT_METHODS
       (mapCreatedComponentType name)
     = Checkout.includes ComponentMap.UNSUPPORTED_PAYMENT_METHODS name.
Proof.
  assert (Halias : mapCreatedComponentType name = name \/ name = "card").
  { unfold mapCreatedComponentType.
    destruct (String.eqb name "card") eqn:E; [right | left; reflexivity].
    now apply String.eqb_eq. }
  split; [| split].
  - destruct (Checkout.includes ComponentMap.NATIVE_COMPONENTS name) eqn:E;
      [| reflexivity].
    apply includes_In in E. unfold ComponentMap.NATIVE_COMPONENTS in E.
    simpl in E.
    repeat (destruct E as [<- | E]; [reflexivity |]). contradiction.
  - intros H. destruct Halias as [-> | ->]; [exact H | reflexivity].
  - destruct Halias as [-> | ->]; reflexivity.
Qed.

Lemma component_tables_are_consistent_witness :
  Checkout.includes ComponentMap.NATIVE_COMPONENTS "card" = true
  /\ Checkout.includes ComponentMap.NATIVE_COMPONENTS "scheme" = true.
Proof.
  split; [reflexivity |].
  destruct (component_tables_are_consistent "card") as (_ & H & _).
  apply H. reflexivity.
Defined.

End ResolverMore.

(** ** The provider over its lifetime *)

Section ObjectsMore.

Lemma set_present_value (o : JS.Object) (k : string) (v : JS.Value) :
  JS.lookup o k = Some v -> JS.set o k v = o.
Proof.
  induction o as [| [k' v'] rest IH]; simpl; [discriminate |].
  destruct (String.eqb k' k) eqn:E.
  - intros H. now injection H as ->.
  - intros H. now rewrite IH.
Qed.

Lemma set_absent_appends (o : JS.Object) (k : string) (v : JS.Value) :
  JS.lookup o k = None -> JS.set o k v = o ++ [(k, v)].
Proof.
  induction o as [| [k' v'] rest IH]; simpl; [reflexivity |].
  destruct (String.eqb k' k) eqn:E; [discriminate |].
  intros H. now rewrite IH.
Qed.

End ObjectsMore.

Section ProviderMore.
Import Resolver Checkout Observe Lifecycle.

Variable checkPaymentMethodsResponse :
  option PaymentMethodsResponse -> Completion PaymentMethodsResponse.
Variable getNativeComponent :
  string -> PaymentMethodsResponse ->
  Completion (AdyenActionComponent * option PaymentMethod).
Variable checkConfiguration : Configuration -> Completion unit.

Local Abbreviation start' :=
  (start checkPaymentMethodsResponse getNativeComponent checkConfiguration).
Local Abbreviation after' :=
  (after checkPaymentMethodsResponse getNativeComponent checkConfiguration).
Local Abbreviation start_eq' :=
  (start_eq checkPaymentMethodsResponse getNativeComponent checkConfiguration).

Lemma after_app (ops1 ops2 : list Operation) (st : State) :
  after' (ops1 ++ ops2) st = after' ops2 (after' ops1 st).
Proof.
  revert st. induction ops1 as [| op ops1 IH]; intros st; [reflexivity |].
  simpl. apply IH.
Qed.

Lemma reachable_owned (ops : list Operation) :
  owned (after' ops initialState) = true.
Proof. apply owned_after, owned_initialState. Qed.

(** X5. The payload [submitPayment] hands to [onSubmit] is the payment data
    itself when the data carries a [returnUrl] that is neither null nor
    undefined; when the data has no [returnUrl] property it is the data with
    the configuration's [returnUrl] added as its last property. *)
Theorem submitPayment_payload
    (f : HostCallback) (configuration : Configuration) (data : JS.Object)
    (nc : AdyenActionComponent) (extra : JS.Value) (st : State) :
  exists payload,
    submitPayment (Some f) configuration data nc extra st
    = (Normal tt, st, [HostOnSubmit f payload nc extra])
    /\ (forall v, JS.lookup data "returnUrl" = Some v -> JS.nullish v = false ->
          payload = data)
    /\ (JS.lookup data "returnUrl" = None ->
          payload = data ++ [("returnUrl", JS.get configuration "returnUrl")]).
Proof.
  eexists. split; [reflexivity |]. unfold JS.spread_with, JS.coalesce, JS.get.
  split.
  - intros v Hv Hn. rewrite Hv, Hn. now apply set_present_value.
  - intros Hv. rewrite Hv. simpl. now apply set_absent_appends.
Qed.

Lemma submitPayment_payload_witness :
  let own := [("amount", JS.Num 10); ("returnUrl", JS.Str "other://back")] in
  exists payload,
    submitPayment (Some 1) Sample.validConfig own Sample.nativeModule
                  JS.Undefined initialState
    = (Normal tt, initialState,
       [HostOnSubmit 1 payload Sample.nativeModule JS.Undefined])
    /\ payload = own.
Proof.
  intros own.
  destruct (submitPayment_payload 1 Sample.validConfig own Sample.nativeModule
              JS.Undefined initialState) as (payload & Hcall & Hown & _).
  exists payload. split; [exact Hcall |].
  apply (Hown (JS.Str "other://back")); reflexivity.
Defined.

(** X6. [start] calls the native [open] exactly once when it runs to
    completion and not at all when it throws; when it is called, [open] is
    the last thing [start] does; and besides [remove] on the previous
    subscriptions and [open], [start] calls nothing: it neither hides the
    native module nor calls a host callback. *)
Theorem start_opens_once_and_last
    (props : AdyenCheckoutProps) (typeName : string) (st : State) :
  let r := start' props typeName st in
  count isOpen (effects r)
  = match completion r with Normal _ => 1 | Throw _ => 0 end
  /\ filter isOtherCall (effects r) = []
  /\ exists tail,
       effects r = map SubscriptionRemove (subscriptions st) ++ tail
       /\ forallb isOpen tail = true
       /\ length tail = count isOpen (effects r).
Proof.
  assert (Hrem : forall subs,
             filter isOtherCall (map SubscriptionRemove subs) = []).
  { induction subs; simpl; auto. }
  intros r. subst r. rewrite start_eq'. cbv zeta.
  unfold count, completion, effects.
  destruct (checkPaymentMethodsResponse _) as [current | e].
  2: { cbn [fst snd]. rewrite removes_are_not_opens, Hrem.
       repeat split. exists []. now rewrite app_nil_r. }
  destruct (getNativeComponent typeName current) as [resolved | e].
  2: { cbn [fst snd]. rewrite removes_are_not_opens, Hrem.
       repeat split. exists []. now rewrite app_nil_r. }
  destruct (checkConfiguration (config props)) as [[] | e].
  2: { cbn [fst snd]. rewrite removes_are_not_opens, Hrem.
       repeat split. exists []. now rewrite app_nil_r. }
  cbn [fst snd]. rewrite !filter_app, removes_are_not_opens, Hrem.
  destruct (snd resolved); simpl; repeat split; eexists; repeat split.
Qed.

(** X7. The checks run in the order catalog, component, configuration, and
    [start] throws what the first failing one throws: a missing catalog is
    reported even if the component or the configuration would fail too, and
    the configuration is looked at last.  With all three passing, [start]
    completes. *)
Theorem start_throws_first_failing_check
    (props : AdyenCheckoutProps) (typeName : string) (st : State) :
  let r := start' props typeName st in
  match checkPaymentMethodsResponse (effectivePaymentMethods props st) with
  | Throw e => completion r = Throw e
  | Normal catalog =>
      match getNativeComponent typeName catalog with
      | Throw e => completion r = Throw e
      | Normal _ =>
          match checkConfiguration (config props) with
          | Throw e => completion r = Throw e
          | Normal _ => completion r = Normal tt
          end
      end
  end.
Proof.
  intros r. subst r. rewrite start_eq'. cbv zeta.
  destruct (checkPaymentMethodsResponse _) as [current | e]; [| reflexivity].
  destruct (getNativeComponent typeName current) as [resolved | e];
    [| reflexivity].
  now destruct (checkConfiguration (config props)) as [[] | e].
Qed.

(** X8. After a [start] that threw, whatever happened before, the emitter
    holds no listener of the provider: no native event makes the provider
    call anything, and the stored session is as it was. *)
Theorem failed_start_leaves_provider_silent
    (ops : list Operation) (props : AdyenCheckoutProps) (typeName : string)
    (e : Exception) (ev : NativeEvent) :
  let st := after' ops initialState in
  let r := start' props typeName st in
  completion r = Throw e ->
  registry (final r) = []
  /\ effects (emit ev (final r)) = []
  /\ count isOpen (effects r) = 0
  /\ sessionStorage (final r) = sessionStorage st.
Proof.
  intros st r. subst r.
  pose proof (released_owned st (reachable_owned ops)) as Hempty.
  assert (Hsilent : forall st0, registry st0 = [] -> effects (emit ev st0) = []).
  { intros st0 E. rewrite emit_eq. unfold listenersFor. now rewrite E. }
  rewrite start_eq'. cbv zeta. unfold count.
  destruct (checkPaymentMethodsResponse _) as [current | e1].
  2: { intros _. unfold final, effects at 2. cbn [fst snd].
       rewrite removes_are_not_opens. auto. }
  destruct (getNativeComponent typeName current) as [resolved | e1].
  2: { intros _. unfold final, effects at 2. cbn [fst snd].
       rewrite removes_are_not_opens. auto. }
  destruct (checkConfiguration (config props)) as [[] | e1]; [discriminate |].
  intros _. unfold final, effects at 2. cbn [fst snd].
  rewrite removes_are_not_opens. auto.
Qed.

End ProviderMore.

Section ProviderSessions.
Import Resolver Checkout Observe Lifecycle.

Variable checkPaymentMethodsResponse :
  option PaymentMethodsResponse -> Completion PaymentMethodsResponse.
Variable getNativeComponent :
  string -> PaymentMethodsResponse ->
  Completion (AdyenActionComponent * option PaymentMethod).
Variable checkConfiguration : Configuration -> Completion unit.

Local Abbreviation start' :=
  (start checkPaymentMethodsResponse getNativeComponent checkConfiguration).
Local Abbreviation after' :=
  (after checkPaymentMethodsResponse getNativeComponent checkConfiguration).
Local Abbreviation operate' :=
  (operate checkPaymentMethodsResponse getNativeComponent checkConfiguration).
Local Abbreviation start_eq' :=
  (start_eq checkPaymentMethodsResponse getNativeComponent checkConfiguration).
Local Abbreviation start_completes' :=
  (start_completes checkPaymentMethodsResponse getNativeComponent checkConfiguration).

Lemma start_keeps_session (props : AdyenCheckoutProps) (typeName : string)
      (st : State) :
  sessionStorage (final (start' props typeName st)) = sessionStorage st.
Proof.
  rewrite start_eq'. cbv zeta.
  destruct (checkPaymentMethodsResponse _) as [current | e]; [| reflexivity].
  destruct (getNativeComponent typeName current) as [resolved | e];
    [| reflexivity].
  now destruct (checkConfiguration (config props)) as [[] | e].
Qed.

(** X9. When the props carry a catalog, [start] does not look at the stored
    session: with any session stored, or none, it ends the same way and
    performs the same calls. *)
Theorem prefetched_catalog_takes_precedence
    (props : AdyenCheckoutProps) (typeName : string) (st : State)
    (stored : option SessionResponse) (catalog : PaymentMethodsResponse) :
  props_paymentMethods props = Some catalog ->
  effectivePaymentMethods props (withSession stored st) = Some catalog
  /\ completion (start' props typeName (withSession stored st))
     = completion (start' props typeName st)
  /\ effects (start' props typeName (withSession stored st))
     = effects (start' props typeName st).
Proof.
  intros H.
  assert (Heff : forall st0, effectivePaymentMethods props st0 = Some catalog).
  { intros st0. unfold effectivePaymentMethods. now rewrite H. }
  split; [apply Heff |].
  rewrite !start_eq'. cbv zeta. rewrite !Heff.
  change (subscriptions (withSession stored st)) with (subscriptions st).
  destruct (checkPaymentMethodsResponse (Some catalog)) as [current | e];
    [| split; reflexivity].
  destruct (getNativeComponent typeName current) as [resolved | e];
    [| split; reflexivity].
  destruct (checkConfiguration (config props)) as [[] | e]; split; reflexivity.
Qed.


(** X11. While the provider stays mounted, the stored session is the
    response of the latest session creation that was fulfilled: a start, a
    native event and a rejected session creation all leave it as it is. *)
Theorem stored_session_is_latest_fulfilled
    (ops : list Operation) (st : State) :
  staysMounted ops = true ->
  sessionStorage (after' ops st) = latestSession ops (sessionStorage st).
Proof.
  revert st. induction ops as [| op ops IH]; intros st Hm; [reflexivity |].
  cbn [staysMounted forallb] in Hm. apply andb_true_iff in Hm.
  destruct Hm as [Hop Hops]. cbn [after]. rewrite (IH _ Hops).
  destruct op as [props typeName | | ev | props [response | e]];
    cbn [operate latestSession].
  - now rewrite start_keeps_session.
  - discriminate Hop.
  - now rewrite emit_eq.
  - reflexivity.
  - reflexivity.
Qed.

(** X12. Once the provider is unmounted, whatever happened before, the
    emitter holds none of its listeners and no native event makes it call
    anything. *)
Theorem unmounted_provider_is_silent (ops : list Operation) (ev : NativeEvent) :
  let st := after' (ops ++ [Unmount]) initialState in
  registry st = [] /\ effects (emit ev st) = [].
Proof.
  intros st. subst st. rewrite after_app. cbn [after operate].
  rewrite removeEventListeners_eq. unfold final. cbn [fst snd].
  pose proof (released_owned _ (reachable_owned checkPaymentMethodsResponse
                                  getNativeComponent checkConfiguration ops)) as H.
  split; [exact H |].
  rewrite emit_eq. unfold listenersFor. now rewrite H.
Qed.

(** X20. [removeEventListeners] takes from the emitter the listeners of the
    provider's own subscription set and no other: a listener registered
    under a subscription that is not in the set is still registered
    afterwards, and nothing is registered that was not before. *)
Theorem detach_spares_foreign_listeners (st : State) (r : Registration) :
  In r (registry (final (removeEventListeners st)))
  <-> In r (registry st) /\ heldBy (subscriptions st) r = false.
Proof.
  rewrite removeEventListeners_eq. unfold final, released. cbn [fst snd registry].
  rewrite filter_In. now rewrite negb_true_iff.
Qed.

End ProviderSessions.

Section ProviderEvents.
Import Resolver Checkout Observe Lifecycle.

Variable checkPaymentMethodsResponse :
  option PaymentMethodsResponse -> Completion PaymentMethodsResponse.
Variable getNativeComponent :
  string -> PaymentMethodsResponse ->
  Completion (AdyenActionComponent * option PaymentMethod).
Variable checkConfiguration : Configuration -> Completion unit.

Local Abbreviation start' :=
  (start checkPaymentMethodsResponse getNativeComponent checkConfiguration).
Local Abbreviation after' :=
  (after checkPaymentMethodsResponse getNativeComponent checkConfiguration).
Local Abbreviation start_completes' :=
  (start_completes checkPaymentMethodsResponse getNativeComponent checkConfiguration).
Local Abbreviation reachable_owned' :=
  (reachable_owned checkPaymentMethodsResponse getNativeComponent checkConfiguration).

Lemma listenersFor_onAdditionalDetails_attached (props : AdyenCheckoutProps)
      (configuration : Configuration) (nc : AdyenActionComponent) (st : State) :
  registry st = [] ->
  map listener
      (listenersFor Event.onAdditionalDetails
                    (attachedState props configuration nc st))
  = if includes (events nc) Event.onAdditionalDetails
    then [AdditionalDetailsListener nc (onAdditionalDetails props)]
    else [].
Proof.
  intros H. unfold listenersFor, attachedState, attached.
  cbn [registry]. rewrite H.
  destruct (includes (events nc) Event.onAdditionalDetails);
    destruct (includes (events nc) Event.onComplete); reflexivity.
Qed.

Lemma listenersFor_onComplete_attached (props : AdyenCheckoutProps)
      (configuration : Configuration) (nc : AdyenActionComponent) (st : State) :
  registry st = [] ->
  map listener
      (listenersFor Event.onComplete (attachedState props configuration nc st))
  = if includes (events nc) Event.onComplete
    then [CompleteListener nc (onComplete props)]
    else [].
Proof.
  intros H. unfold listenersFor, attachedState, attached.
  cbn [registry]. rewrite H.
  destruct (includes (events nc) Event.onAdditionalDetails);
    destruct (includes (events nc) Event.onComplete); reflexivity.
Qed.

Lemma flat_map_listeners (ev : NativeEvent) (regs : list Registration) :
  flat_map (fun r => reaction (listener r) ev) regs
  = flat_map (fun l => reaction l ev) (map listener regs).
Proof. induction regs as [| r regs IH]; simpl; [| rewrite IH]; reflexivity. Qed.

(** X13. A [start] that runs to completion leaves a subscription set that
    begins with the submit and the error subscription and goes on with an
    additional-details subscription and a completion subscription exactly
    when the native module declares those events; the subscriptions of the
    set are distinct. *)
Theorem start_subscribes_to_declared_events
    (props : AdyenCheckoutProps) (typeName : string) (st : State)
    (catalog : PaymentMethodsResponse) (nc : AdyenActionComponent)
    (found : option PaymentMethod) :
  checkPaymentMethodsResponse (effectivePaymentMethods props st) = Normal catalog ->
  getNativeComponent typeName catalog = Normal (nc, found) ->
  checkConfiguration (config props) = Normal tt ->
  let current := subscriptions (final (start' props typeName st)) in
  map eventType current
  = [Event.onSubmit; Event.onError]
    ++ (if includes (events nc) Event.onAdditionalDetails
        then [Event.onAdditionalDetails] else [])
    ++ (if includes (events nc) Event.onComplete
        then [Event.onComplete] else [])
  /\ NoDup (map key current).
Proof.
  intros Hcheck Hres Hcfg current. subst current.
  rewrite (start_completes' _ _ _ _ _ _ Hcheck Hres Hcfg).
  unfold final, attachedState, attached. cbn [fst snd subscriptions nextKey].
  set (k := nextKey (released (subscriptions st) st)).
  destruct (includes (events nc) Event.onAdditionalDetails);
    destruct (includes (events nc) Event.onComplete);
    (split; [reflexivity |]); simpl;
    repeat (constructor; [simpl; lia |]); constructor.
Qed.

(** X14. After a [start] that ran to completion, an additional-details
    event reaches the host's [onAdditionalDetails], with the event's data and
    the native module, only if the module declares the event and the host
    gave the callback; otherwise the provider does nothing.  The native
    module is not hidden for it. *)
Theorem additional_details_forwarded_when_declared
    (ops : list Operation) (props : AdyenCheckoutProps) (typeName : string)
    (catalog : PaymentMethodsResponse) (nc : AdyenActionComponent)
    (found : option PaymentMethod) (data : JS.Value) :
  let st := after' ops initialState in
  checkPaymentMethodsResponse (effectivePaymentMethods props st) = Normal catalog ->
  getNativeComponent typeName catalog = Normal (nc, found) ->
  checkConfiguration (config props) = Normal tt ->
  let listening := final (start' props typeName st) in
  effects (emit (AdditionalDetailsEvent data) listening)
  = match includes (events nc) Event.onAdditionalDetails,
          onAdditionalDetails props with
    | true, Some f => [HostOnAdditionalDetails f data nc]
    | _, _ => []
    end.
Proof.
  intros st Hcheck Hres Hcfg listening. subst listening.
  rewrite (start_completes' _ _ _ _ _ _ Hcheck Hres Hcfg).
  unfold final. cbn [fst snd]. rewrite emit_eq. unfold effects.
  cbn [snd eventName]. rewrite flat_map_listeners.
  rewrite listenersFor_onAdditionalDetails_attached
    by (apply released_owned, reachable_owned').
  destruct (includes (events nc) Event.onAdditionalDetails); [| reflexivity].
  now destruct (onAdditionalDetails props).
Qed.

(** X15. After a [start] that ran to completion, a completion event reaches
    the host's [onComplete], with the event's result and the native module,
    only if the module declares the event and the host gave the callback;
    otherwise the provider does nothing. *)
Theorem completion_forwarded_when_declared
    (ops : list Operation) (props : AdyenCheckoutProps) (typeName : string)
    (catalog : PaymentMethodsResponse) (nc : AdyenActionComponent)
    (found : option PaymentMethod) (data : JS.Value) :
  let st := after' ops initialState in
  checkPaymentMethodsResponse (effectivePaymentMethods props st) = Normal catalog ->
  getNativeComponent typeName catalog = Normal (nc, found) ->
  checkConfiguration (config props) = Normal tt ->
  let listening := final (start' props typeName st) in
  effects (emit (CompleteEvent data) listening)
  = match includes (events nc) Event.onComplete, onComplete props with
    | true, Some f => [HostOnComplete f data nc]
    | _, _ => []
    end.
Proof.
  intros st Hcheck Hres Hcfg listening. subst listening.
  rewrite (start_completes' _ _ _ _ _ _ Hcheck Hres Hcfg).
  unfold final. cbn [fst snd]. rewrite emit_eq. unfold effects.
  cbn [snd eventName]. rewrite flat_map_listeners.
  rewrite listenersFor_onComplete_attached
    by (apply released_owned, reachable_owned').
  destruct (includes (events nc) Event.onComplete); [| reflexivity].
  now destruct (onComplete props).
Qed.

End ProviderEvents.

(** ** The instant-payment bottom sheet over its lifetime *)

Section InstantFlowFacts.
Import InstantFragment InstantFlow.

Lemma getString_putString_same (key value : string) (b : Bundle) :
  getString key (putString key value b) = Some value.
Proof.
  induction b as [| [k v] rest IH]; simpl.
  - now rewrite String.eqb_refl.
  - destruct (String.eqb k key) eqn:E; simpl; rewrite E; auto.
Qed.

Lemma getString_putString_other (key key' value : string) (b : Bundle) :
  key' <> key -> getString key' (putString key value b) = getString key' b.
Proof.
  intros Hne. induction b as [| [k v] rest IH]; simpl.
  - destruct (String.eqb key key') eqn:E; auto.
    apply String.eqb_eq in E. congruence.
  - destruct (String.eqb k key) eqn:E; simpl.
    + apply String.eqb_eq in E. subst k.
      destruct (String.eqb key key') eqn:E'; auto.
      apply String.eqb_eq in E'. congruence.
    + now rewrite IH.
Qed.

Lemma putString_twice (key value : string) (b : Bundle) :
  putString key value (putString key value b) = putString key value b.
Proof.
  induction b as [| [k v] rest IH]; simpl.
  - now rewrite String.eqb_refl.
  - destruct (String.eqb k key) eqn:E; simpl; rewrite E; [| rewrite IH];
      reflexivity.
Qed.

Lemma lastViewState_after_one (inputs : list Input) (viewState : InstantViewState) :
  lastViewState inputs (Some viewState) <> None.
Proof.
  revert viewState.
  induction inputs as [| [d | ev | vs | i] rest IH]; intros v; simpl;
    try discriminate; apply IH.
Qed.

(** One view state, on a fragment that has its view. *)
Lemma view_state_step (viewState : InstantViewState) (b : FragmentInstantBinding) :
  exists b',
    InstantFragment.onViewState viewState {| _binding := Some b |}
    = Some {| _binding := Some b' |}
    /\ visibleCount b' = 1
    /\ shows viewState b'.
Proof.
  destruct viewState as [| errorMessage |]; simpl;
    eexists; (split; [reflexivity | split; simpl; auto]).
Qed.

(** While the fragment has its view, a run of inputs keeps it, ends
    normally, and leaves the display with the last view state and the
    component with the last component data. *)
Lemma receiveAll_invariant (inputs : list Input) :
  forall (h : Host) (b : FragmentInstantBinding)
         (earlier : option InstantViewState),
    binding h = Some b ->
    match earlier with
    | Some viewState => visibleCount b = 1 /\ shows viewState b
    | None => True
    end ->
    let o := receiveAll inputs h in
    ending o = Returns
    /\ arguments (host o) = arguments h
    /\ configuration (host o) = configuration h
    /\ instantPaymentComponent (host o)
       = lastComponent (configuration h) inputs (instantPaymentComponent h)
    /\ exists b',
         binding (host o) = Some b'
         /\ match lastViewState inputs earlier with
            | Some viewState => visibleCount b' = 1 /\ shows viewState b'
            | None => b' = b
            end.
Proof.
  induction inputs as [| input rest IH]; intros h b earlier Hb Hshown.
  - cbn. repeat split. exists b. split; [exact Hb |].
    destruct earlier; auto.
  - destruct h as [cfg [ob] comp args]. unfold binding in Hb. simpl in Hb.
    subst ob.
    destruct input as [componentData | [action | result] | viewState | intent].
    + specialize (IH
        {| configuration := cfg; view := {| _binding := Some b |};
           instantPaymentComponent :=
             Some {| component_paymentMethod := paymentMethod componentData;
                     component_configuration := cfg;
                     component_callback := callback componentData |};
           arguments := args |} b earlier eq_refl Hshown).
      cbv zeta in IH. cbn [receiveAll receive setupInstantComponent view _binding
                           configuration arguments instantPaymentComponent
                           lastComponent lastViewState].
      destruct (receiveAll rest _) as [[e h2] calls2].
      exact IH.
    + specialize (IH
        {| configuration := cfg; view := {| _binding := Some b |};
           instantPaymentComponent := comp; arguments := args |}
        b earlier eq_refl Hshown).
      cbv zeta in IH.
      destruct comp;
        cbn [receiveAll receive onEvent onAction lastComponent lastViewState
             instantPaymentComponent];
        destruct (receiveAll rest _) as [[e h2] calls2]; exact IH.
    + specialize (IH
        {| configuration := cfg; view := {| _binding := Some b |};
           instantPaymentComponent := comp; arguments := args |}
        b earlier eq_refl Hshown).
      cbv zeta in IH.
      cbn [receiveAll receive onEvent onPaymentResult lastComponent lastViewState].
      destruct (receiveAll rest _) as [[e h2] calls2]; exact IH.
    + destruct (view_state_step viewState b) as (b1 & Hstep & Hone & Hshows).
      specialize (IH
        {| configuration := cfg; view := {| _binding := Some b1 |};
           instantPaymentComponent := comp; arguments := args |}
        b1 (Some viewState) eq_refl (conj Hone Hshows)).
      cbv zeta in IH.
      cbn [receiveAll receive lastComponent lastViewState].
      unfold InstantFlow.onViewState. cbn [view]. rewrite Hstep.
      cbn [configuration arguments instantPaymentComponent].
      destruct (receiveAll rest _) as [[e h2] calls2].
      destruct IH as (He & Ha & Hc & Hcomp & b' & Hb' & Hlast).
      repeat split; auto. exists b'. split; [exact Hb' |].
      destruct (lastViewState rest (Some viewState)) eqn:El; [exact Hlast |].
      exfalso. now apply (lastViewState_after_one rest viewState).
    + specialize (IH
        {| configuration := cfg; view := {| _binding := Some b |};
           instantPaymentComponent := comp; arguments := args |}
        b earlier eq_refl Hshown).
      cbv zeta in IH.
      destruct comp;
        cbn [receiveAll receive onNewIntent lastComponent lastViewState
             instantPaymentComponent];
        destruct (receiveAll rest _) as [[e h2] calls2]; exact IH.
Qed.

(** X16. While the fragment has its view, no sequence of component data,
    events, view states and intents makes it throw; and once a view state
    was among them, exactly one of the three widgets is visible and it is
    the widget of the last view state delivered, whatever was delivered
    around it.  Without a view state the widgets stay as they were. *)
Theorem display_follows_last_view_state
    (inputs : list Input) (h : Host) (b : FragmentInstantBinding) :
  binding h = Some b ->
  let o := receiveAll inputs h in
  ending o = Returns
  /\ arguments (host o) = arguments h
  /\ match lastViewState inputs None with
     | Some viewState =>
         exists b', binding (host o) = Some b'
                    /\ visibleCount b' = 1 /\ shows viewState b'
     | None => binding (host o) = Some b
     end.
Proof.
  intros Hb o.
  destruct (receiveAll_invariant inputs h b None Hb I)
    as (He & Ha & _ & _ & b' & Hb' & Hlast).
  fold o in He, Ha, Hb'. repeat split; auto.
  destruct (lastViewState inputs None).
  - now exists b'.
  - now subst b'.
Qed.

(** X17. While the fragment has its view, a new intent and an additional
    action are handed to the component set up from the last component data
    delivered, each with one call; when no component data was delivered yet
    they are dropped without a call. *)
Theorem intents_and_actions_reach_latest_component
    (inputs : list Input) (h : Host) (b : FragmentInstantBinding)
    (intent : Intent) (action : Action) :
  binding h = Some b ->
  let h' := host (receiveAll inputs h) in
  let latest := lastComponent (configuration h) inputs (instantPaymentComponent h) in
  calls (onNewIntent intent h')
  = match latest with
    | Some component => [HandleIntent component intent]
    | None => []
    end
  /\ calls (onEvent (AdditionalAction action) h')
     = match latest with
       | Some component => [HandleAction component action]
       | None => []
       end.
Proof.
  intros Hb h' latest.
  destruct (receiveAll_invariant inputs h b None Hb I)
    as (_ & _ & _ & Hcomp & _).
  fold h' in Hcomp. fold latest in Hcomp.
  unfold onNewIntent, onEvent, onAction. rewrite Hcomp.
  now destruct latest.
Qed.

(** X18. After [onDestroyView] the fragment keeps its arguments and has
    neither view nor component: a view state and component data make it
    throw, while a new intent and an additional action are dropped without a
    call and without an exception. *)
Theorem destroyed_view_drops_inputs (h : Host) :
  let d := host (onDestroyView h) in
  arguments d = arguments h
  /\ (forall viewState, onViewState viewState d = (Throws, d, []))
  /\ (forall componentData,
        ending (setupInstantComponent componentData d) = Throws
        /\ calls (setupInstantComponent componentData d) = [])
  /\ (forall intent, onNewIntent intent d = (Returns, d, []))
  /\ (forall action, onEvent (AdditionalAction action) d = (Returns, d, [])).
Proof.
  intros d. subst d. repeat split.
  intros viewState. unfold onViewState. cbn [host onDestroyView fst snd view].
  now rewrite onViewState_without_view.
Qed.

(** X19. [onCreateView] puts the return URL, the application's return URL
    followed by ["/instant"], among the arguments and keeps every other
    argument; it installs the inflated binding and leaves the component
    alone; and creating the view again with the same return URL leaves the
    arguments as they are. *)
Theorem onCreateView_adds_return_url
    (applicationReturnUrl : string) (inflated again : FragmentInstantBinding)
    (h : Host) :
  let h' := host (onCreateView applicationReturnUrl inflated h) in
  binding h' = Some inflated
  /\ instantPaymentComponent h' = instantPaymentComponent h
  /\ arguments (host (onCreateView applicationReturnUrl again h')) = arguments h'
  /\ exists args,
       arguments h' = Some args
       /\ getString RETURN_URL_EXTRA args
          = Some (applicationReturnUrl ++ "/instant")%string
       /\ forall key, key <> RETURN_URL_EXTRA ->
            getString key args
            = match arguments h with
              | Some before => getString key before
              | None => None
              end.
Proof.
  intros h'. subst h'. unfold onCreateView, host, binding. cbn [fst snd view
    _binding instantPaymentComponent arguments].
  repeat split.
  - now rewrite putString_twice.
  - eexists. split; [reflexivity |]. split.
    + apply getString_putString_same.
    + intros key Hkey. rewrite getString_putString_other by exact Hkey.
      now destruct (arguments h).
Qed.

Lemma onCreateView_adds_return_url_witness :
  exists args,
    arguments sampleHost = Some args
    /\ getString RETURN_URL_EXTRA args
       = Some "adyencheckout://com.example/instant"
    /\ getString PAYMENT_METHOD_TYPE_EXTRA args = Some "paybybank".
Proof.
  destruct (onCreateView_adds_return_url "adyencheckout://com.example"
              sampleBinding sampleBinding (created "test-configuration" "paybybank"))
    as (_ & _ & _ & args & Hargs & Hurl & Hkeep).
  exists args. split; [exact Hargs |]. split; [exact Hurl |].
  rewrite Hkeep by discriminate. reflexivity.
Defined.

End InstantFlowFacts.

(** ** The further properties on the sample provider and fragment *)

Section MoreScenarios.
Import Resolver Checkout Observe Lifecycle.

Local Abbreviation cpmr := Imported.checkPaymentMethodsResponse.
Local Abbreviation gnc := (Imported.getNativeComponent Sample.moduleFor).
Local Abbreviation cc := Imported.checkConfiguration.

Lemma failed_start_leaves_provider_silent_witness :
  let st := after cpmr gnc cc [Start Sample.validProps "card"] initialState in
  let r := start cpmr gnc cc Sample.invalidProps "card" st in
  completion r = Throw (ConfigurationError "environment")
  /\ registry (final r) = []
  /\ effects (emit (SubmitEvent Sample.submitted) (final r)) = []
  /\ count isOpen (effects r) = 0
  /\ sessionStorage (final r) = sessionStorage st.
Proof.
  intros st r.
  assert (H : completion r = Throw (ConfigurationError "environment"))
    by (vm_compute; reflexivity).
  split; [exact H |].
  exact (failed_start_leaves_provider_silent cpmr gnc cc
           [Start Sample.validProps "card"] Sample.invalidProps "card"
           (ConfigurationError "environment") (SubmitEvent Sample.submitted) H).
Defined.

Lemma prefetched_catalog_takes_precedence_witness :
  let stored := Some {| session_paymentMethods := Sample.catalogB;
                        session_tokens := [] |} in
  effectivePaymentMethods Sample.validProps (withSession stored initialState)
  = Some Sample.catalogA
  /\ completion (Sample.start Sample.validProps "card"
                              (withSession stored initialState))
     = completion (Sample.start Sample.validProps "card" initialState)
  /\ effects (Sample.start Sample.validProps "card"
                           (withSession stored initialState))
     = effects (Sample.start Sample.validProps "card" initialState).
Proof.
  intros stored.
  apply (prefetched_catalog_takes_precedence cpmr gnc cc Sample.validProps
           "card" initialState stored Sample.catalogA).
  reflexivity.
Defined.


Lemma stored_session_is_latest_fulfilled_witness :
  let first := {| session_paymentMethods := Sample.catalogA;
                  session_tokens := [("id", JS.Str "CS1")] |} in
  let second := {| session_paymentMethods := Sample.catalogB;
                   session_tokens := [("id", JS.Str "CS2")] |} in
  let ops :=
    [CreateSession Sample.sessionProps (Fulfilled first);
     Start Sample.sessionProps "card";
     CreateSession Sample.sessionProps (Fulfilled second);
     Emit (ErrorEvent Sample.canceled);
     CreateSession Sample.sessionProps (Rejected (JS.Obj [("code", JS.Num 500)]));
     Start Sample.invalidProps "card"] in
  sessionStorage (after cpmr gnc cc ops initialState) = Some second.
Proof.
  intros first second ops.
  exact (stored_session_is_latest_fulfilled cpmr gnc cc ops initialState eq_refl).
Defined.

Lemma start_subscribes_to_declared_events_witness :
  let current :=
    subscriptions (final (Sample.start Sample.validProps "card" initialState)) in
  map eventType current
  = [Event.onSubmit; Event.onError; Event.onAdditionalDetails; Event.onComplete]
  /\ NoDup (map key current).
Proof.
  exact (start_subscribes_to_declared_events cpmr gnc cc Sample.validProps
           "card" initialState Sample.catalogA Sample.nativeModule
           (Some Sample.scheme) eq_refl eq_refl eq_refl).
Defined.

Lemma additional_details_forwarded_when_declared_witness :
  let listening := final (Sample.start Sample.validProps "card" initialState) in
  effects (emit (AdditionalDetailsEvent (JS.Str "details")) listening)
  = [HostOnAdditionalDetails 3 (JS.Str "details") Sample.nativeModule].
Proof.
  exact (additional_details_forwarded_when_declared cpmr gnc cc []
           Sample.validProps "card" Sample.catalogA Sample.nativeModule
           (Some Sample.scheme) (JS.Str "details") eq_refl eq_refl eq_refl).
Defined.

Lemma completion_forwarded_when_declared_witness :
  let listening := final (Sample.start Sample.validProps "card" initialState) in
  effects (emit (CompleteEvent (JS.Str "Authorised")) listening)
  = [HostOnComplete 4 (JS.Str "Authorised") Sample.nativeModule].
Proof.
  exact (completion_forwarded_when_declared cpmr gnc cc []
           Sample.validProps "card" Sample.catalogA Sample.nativeModule
           (Some Sample.scheme) (JS.Str "Authorised") eq_refl eq_refl eq_refl).
Defined.

(** A native module that declares neither optional event gets neither
    subscription, and its additional-details events go nowhere. *)
Example undeclared_events_are_not_subscribed :
  let bare := {| moduleName := "AdyenInstant"; events := ["onSubmit"; "onError"] |} in
  let gncBare := Imported.getNativeComponent (fun _ => bare) in
  let listening :=
    final (start cpmr gncBare cc Sample.validProps "card" initialState) in
  map eventType (subscriptions listening) = [Event.onSubmit; Event.onError]
  /\ effects (emit (AdditionalDetailsEvent (JS.Str "details")) listening) = [].
Proof. split; reflexivity. Qed.

End MoreScenarios.

Section MoreFragmentScenarios.
Import InstantFragment InstantFlow.

(** Loading, then the component, then an additional action. *)
Lemma display_follows_last_view_state_witness :
  let inputs :=
    [ViewState Loading;
     ComponentData {| paymentMethod := "paybybank"; callback := 7 |};
     ViewState ShowComponent;
     Event (AdditionalAction "redirect")] in
  let o := receiveAll inputs sampleHost in
  ending o = Returns
  /\ arguments (host o) = arguments sampleHost
  /\ exists b', binding (host o) = Some b'
                /\ visibleCount b' = 1
                /\ isVisible (componentContainer b') = true.
Proof.
  intros inputs o.
  apply (display_follows_last_view_state inputs sampleHost sampleBinding).
  reflexivity.
Defined.

Lemma intents_and_actions_reach_latest_component_witness :
  let inputs :=
    [ComponentData {| paymentMethod := "ideal"; callback := 6 |};
     ViewState Loading;
     ComponentData {| paymentMethod := "paybybank"; callback := 7 |}] in
  let latest := {| component_paymentMethod := "paybybank";
                   component_configuration := "test-configuration";
                   component_callback := 7 |} in
  let h' := host (receiveAll inputs sampleHost) in
  calls (onNewIntent "returned" h') = [HandleIntent latest "returned"]
  /\ calls (onEvent (AdditionalAction "redirect") h')
     = [HandleAction latest "redirect"].
Proof.
  intros inputs latest h'.
  apply (intents_and_actions_reach_latest_component inputs sampleHost
           sampleBinding "returned" "redirect").
  reflexivity.
Defined.

End MoreFragmentScenarios.

Section DetachScenario.
Import Resolver Checkout Observe.

(** A listener someone else registered on the same emitter survives the
    provider's detach. *)
Lemma detach_spares_foreign_listeners_witness :
  let own := {| subscription := {| key := 0; eventType := Event.onError |};
                listener := ErrorListener Sample.nativeModule 2 |} in
  let foreign := {| subscription := {| key := 9; eventType := Event.onError |};
                    listener := ErrorListener Sample.nativeModule 5 |} in
  let st := {| registry := [own; foreign];
               nextKey := 10;
               subscriptions := [subscription own];
               sessionStorage := None |} in
  In foreign (registry (final (removeEventListeners st))).
Proof.
  intros own foreign st.
  apply (detach_spares_foreign_listeners st foreign).
  split; [right; left; reflexivity | reflexivity].
Defined.

End DetachScenario.
